(** * GATI model registry and versioning (src/ml/versioning.py)

    A shallow embedding of [GATIModelVersioning]: the in-memory
    [ModelRegistry], the registry document on disk, the version
    directories of the artifact store, and the operations on them
    ([_get_next_version], [register_model], [promote_to_production],
    [load_model], [compare_versions], [export_lineage],
    [cleanup_old_versions], [_load_registry], [_save_registry]).

    Python values are modelled as follows.
    - [str] is [string]; [int] is [Z] (unbounded).
    - [float] values (metric values, training duration) are never
      inspected by the registry except for equality and, in
      [compare_versions], subtraction and comparison: they are a type
      parameter with decidable equality.
    - a [dict] with string keys is a [gmap string _]; a [list] is a [list].
    - an exception is a value of [exn]; an operation that mutates
      [self.registry] before raising leaves the mutation in the state. *)

From Stdlib Require Import ZArith String Ascii DecimalString DecimalZ Lia.
From stdpp Require Import base option list gmap strings sorting.

Local Open Scope Z_scope.


(** ** Strings: [str.split], [int(...)] and [str(...)] on integers *)

(** [s.split(sep)] for a one-character separator: the pieces between the
    occurrences of [sep], empty pieces included; never the empty list. *)
Fixpoint split_on (sep : ascii) (s : string) : list string :=
  match s with
  | EmptyString => [EmptyString]
  | String c s' =>
      if decide (c = sep) then EmptyString :: split_on sep s'
      else match split_on sep s' with
           | piece :: pieces => String c piece :: pieces
           | [] => [String c EmptyString]
           end
  end.

(** Whether the character [c] occurs in [s] ([c in s]). *)
Fixpoint occurs (c : ascii) (s : string) : bool :=
  match s with
  | EmptyString => false
  | String c' s' => Ascii.eqb c' c || occurs c s'
  end.

(** [str(n)] and the [{n}] field of an f-string, for an [int]. *)
Definition py_str (n : Z) : string := NilZero.string_of_int (Z.to_int n).

(** [int(s)] on the literals the registry itself writes and their plain
    variants: a non-empty run of ASCII digits with an optional leading
    minus sign.  [None] stands for the [ValueError] of [int]; the other
    spellings Python accepts (a plus sign, blanks around the literal,
    underscores between digits) are outside this fragment and are read
    as [None] too, so only results of the form [Some _] are relied on. *)
Definition py_int (s : string) : option Z :=
  Z.of_int <$> NilZero.int_of_string s.

(** [major, minor, patch = map(int, latest.split('.'))]: exactly three
    pieces, each an integer literal; anything else raises [ValueError]. *)
Definition parse_version (s : string) : option (Z * Z * Z) :=
  match py_int <$> split_on "."%char s with
  | [Some major; Some minor; Some patch] => Some (major, minor, patch)
  | _ => None
  end.

(** Triple-integer comparison of parsed versions (lexicographic). *)
Definition triple_lt (a b : Z * Z * Z) : Prop :=
  let '(a1, a2, a3) := a in
  let '(b1, b2, b3) := b in
  a1 < b1 ∨ (a1 = b1 ∧ (a2 < b2 ∨ (a2 = b2 ∧ a3 < b3))).

(** ** Exceptions and results *)

Inductive exn :=
  | ValueError (msg : string)   (* [raise ValueError(msg)] written in the source *)
  | BuiltinValueError           (* [ValueError] of [int], of unpacking, of [fromisoformat] *)
  | IndexError                  (* [l[-1]] on an empty list *)
  | KeyError                    (* [d[k]] on a missing key *)
  | OSError.                    (* a file-system call that fails *)

Inductive result (A : Type) :=
  | Ok (a : A)
  | Raise (e : exn).
Arguments Ok {A} a.
Arguments Raise {A} e.

Section Versioning.

(** Python floats, trained model objects and training data are opaque
    to the registry. *)
Context {float : Type} `{EqDecision float}.
Context {Artifact : Type} {Data : Type}.
(** [_compute_data_hash]: an md5 digest of the data's shape and mean. *)
Variable _compute_data_hash : Data → string.
(** [0] as a float, float subtraction and [>], used by [compare_versions]. *)
Variable fzero : float.
Variable fsub : float → float → float.
Variable fgt : float → float → bool.
(** [(fromisoformat(b) - fromisoformat(a)).days]; [None] when one of
    the two strings is not an ISO timestamp. *)
Variable days_between : string → string → option Z.

(** ** Data model *)

Record ModelVersion := {
  version : string;
  model_name : string;
  model_type : string;
  created_at : string;
  created_by : string;
  description : string;
  metrics : gmap string float;
  training_data_hash : string;
  training_samples : Z;
  feature_count : Z;
  training_duration_seconds : float;
  model_file : string;
  metadata_file : string;
  status : string;
  is_production : bool;
  tags : list string
}.

(** The dataclass [__eq__]: field-wise equality. *)
#[global] Instance ModelVersion_eq_dec : EqDecision ModelVersion.
Proof. solve_decision. Defined.

Record ModelRegistry := {
  models : gmap string (list ModelVersion);
  current_production : gmap string string;
  last_updated : string
}.

(** [ModelRegistry()] *)
Definition new_registry : ModelRegistry :=
  {| models := ∅; current_production := ∅; last_updated := "" |}.

(** ** Version allocator *)

(** [_get_next_version(model_name, bump)] *)
Definition _get_next_version (reg : ModelRegistry) (name bump : string)
  : result string :=
  match models reg !! name with
  | None => Ok "1.0.0"
  | Some line =>
      match last line with
      | None => Ok "1.0.0"
      | Some latest =>
          match parse_version (version latest) with
          | None => Raise BuiltinValueError
          | Some (major, minor, patch) =>
              if decide (bump = "major") then
                Ok (py_str (major + 1) +:+ ".0.0")
              else if decide (bump = "minor") then
                Ok (py_str major +:+ "." +:+ py_str (minor + 1) +:+ ".0")
              else
                Ok (py_str major +:+ "." +:+ py_str minor +:+ "."
                      +:+ py_str (patch + 1))
          end
      end
  end.

(** ** The world: registry object, registry document, artifact store *)

(** A file inside a version directory: [model.joblib] holds the
    trained model, [metadata.json] a copy of the version record. *)
Inductive FileData :=
  | Joblib (a : Artifact)
  | MetadataJson (v : ModelVersion).

(** The JSON object of [registry.json]; a key may be missing, which
    [_load_registry] reads with [data.get(key, default)]. *)
Record RegistryDoc := {
  doc_models : option (gmap string (list ModelVersion));
  doc_current_production : option (gmap string string);
  doc_last_updated : option string
}.

(** What [registry.json] holds: a document, or bytes on which
    [json.load] or the rebuilding of the records raises (an empty or
    truncated file, invalid JSON, a record with a wrong field). *)
Inductive FileContents :=
  | Document (d : RegistryDoc)
  | Unparsable.

(** One entry of [version_history] in a lineage report. *)
Record LineageEntry := {
  le_version : string;
  le_created_at : string;
  le_created_by : string;
  le_description : string;
  le_status : string;
  le_is_production : bool;
  le_training_data_hash : string;
  le_training_samples : Z;
  le_metrics : gmap string float
}.

(** The [lineage] dict that [export_lineage] dumps. *)
Record Lineage := {
  lin_model_name : string;
  lin_generated_at : string;
  lin_total_versions : Z;
  lin_current_production : option string;
  lin_version_history : list LineageEntry
}.

(** The state an operation runs in.  [store] maps the version
    directory [base_dir/name/version] to its files; [locked] are the
    directories whose removal fails with [OSError]; [reports] are the
    lineage documents written so far, by output path.  Directories are
    keyed by the pair (name, version), and output paths are taken to
    be distinct from the registry's own files. *)
Record World := {
  registry : ModelRegistry;
  registry_file : option FileContents;
  store : gmap (string * string) (gmap string FileData);
  locked : gset (string * string);
  reports : gmap string Lineage
}.

Definition set_registry (r : ModelRegistry) (w : World) : World :=
  {| registry := r; registry_file := registry_file w; store := store w;
     locked := locked w; reports := reports w |}.

Definition set_registry_file (f : option FileContents) (w : World) : World :=
  {| registry := registry w; registry_file := f; store := store w;
     locked := locked w; reports := reports w |}.

Definition set_store (s : gmap (string * string) (gmap string FileData))
    (w : World) : World :=
  {| registry := registry w; registry_file := registry_file w; store := s;
     locked := locked w; reports := reports w |}.

Definition set_reports (r : gmap string Lineage) (w : World) : World :=
  {| registry := registry w; registry_file := registry_file w;
     store := store w; locked := locked w; reports := r |}.

Definition set_models (m : gmap string (list ModelVersion))
    (r : ModelRegistry) : ModelRegistry :=
  {| models := m; current_production := current_production r;
     last_updated := last_updated r |}.

Definition set_current_production (c : gmap string string)
    (r : ModelRegistry) : ModelRegistry :=
  {| models := models r; current_production := c;
     last_updated := last_updated r |}.

Definition set_last_updated (t : string) (r : ModelRegistry) : ModelRegistry :=
  {| models := models r; current_production := current_production r;
     last_updated := t |}.

(** ** State and exception monad

    A computation reads and writes the world and either returns or
    raises; the state reached when it raises is kept, as in Python. *)
Definition M (A : Type) : Type := World → result A * World.

Definition ret {A} (a : A) : M A := λ w, (Ok a, w).

Definition bind {A B} (m : M A) (k : A → M B) : M B :=
  λ w, match m w with
       | (Ok a, w') => k a w'
       | (Raise e, w') => (Raise e, w')
       end.

Definition raise {A} (e : exn) : M A := λ w, (Raise e, w).

Definition gets {A} (f : World → A) : M A := λ w, (Ok (f w), w).

Definition modify (f : World → World) : M unit := λ w, (Ok tt, f w).

(** [try: body  except Exception: handler] *)
Definition try_except {A} (body : M A) (handler : exn → M A) : M A :=
  λ w, match body w with
       | (Ok a, w') => (Ok a, w')
       | (Raise e, w') => handler e w'
       end.

(** Result of a pure, possibly raising, computation. *)
Definition lift {A} (r : result A) : M A := λ w, (r, w).

Notation "x <~ c ;; k" := (bind c (λ x, k))
  (at level 100, c at next level, right associativity).
Notation "c ;;; k" := (bind c (λ _, k))
  (at level 100, right associativity).

(** ** Registry store *)

(** [ModelRegistry.to_dict] *)
Definition to_dict (r : ModelRegistry) : RegistryDoc :=
  {| doc_models := Some (models r);
     doc_current_production := Some (current_production r);
     doc_last_updated := Some (last_updated r) |}.

(** The body of the [try] in [_load_registry]. *)
Definition read_registry (c : FileContents) : result ModelRegistry :=
  match c with
  | Unparsable => Raise BuiltinValueError
  | Document d =>
      Ok {| models := default ∅ (doc_models d);
            current_production := default ∅ (doc_current_production d);
            last_updated := default "" (doc_last_updated d) |}
  end.

(** [_load_registry()], on the contents of [registry.json] ([None]
    when the file does not exist).  An exception of the [try] body is
    caught, a warning is logged, and control falls through to the
    final [return ModelRegistry()]. *)
Definition _load_registry (file : option FileContents) : result ModelRegistry :=
  match file with
  | Some c =>
      match read_registry c with
      | Ok r => Ok r
      | Raise _ => Ok new_registry
      end
  | None => Ok new_registry
  end.

(** The three effects of [_save_registry], in program order:
    the timestamp is set on the registry object; [open(path, 'w')]
    creates or truncates [registry.json], which is then empty;
    [json.dump] writes the document into it. *)
Definition stamp_registry (now : string) (w : World) : World :=
  set_registry (set_last_updated now (registry w)) w.

Definition open_registry_file_w (w : World) : World :=
  set_registry_file (Some Unparsable) w.

Definition dump_registry (w : World) : World :=
  set_registry_file (Some (Document (to_dict (registry w)))) w.

Definition save_steps (now : string) : list (World → World) :=
  [stamp_registry now; open_registry_file_w; dump_registry].

Definition run_steps (steps : list (World → World)) (w : World) : World :=
  foldl (λ w step, step w) w steps.

(** [_save_registry()]; [now] is the reading of [datetime.now()]. *)
Definition _save_registry (now : string) : M unit :=
  modify (run_steps (save_steps now)).

(** A save that stops after its first [k] effects. *)
Definition interrupted_save (now : string) (k : nat) (w : World) : World :=
  run_steps (take k (save_steps now)) w.

(** [GATIModelVersioning(base_dir)]: the registry object is loaded
    from the document found on disk. *)
Definition init (file : option FileContents)
    (st : gmap (string * string) (gmap string FileData))
    (lk : gset (string * string)) (rp : gmap string Lineage) : result World :=
  match _load_registry file with
  | Ok r => Ok {| registry := r; registry_file := file; store := st;
                  locked := lk; reports := rp |}
  | Raise e => Raise e
  end.

(** ** Registration *)

Record RegisterArgs := {
  a_model : Artifact;
  a_model_name : string;
  a_model_type : string;
  a_description : string;
  a_metrics : gmap string float;
  a_training_data : option Data;
  a_training_samples : Z;
  a_feature_count : Z;
  a_training_duration : float;
  a_created_by : string;
  a_bump : string;
  a_tags : option (list string)
}.

(** [model_dir.mkdir(parents=True, exist_ok=True)] *)
Definition mkdir (dir : string * string) : M unit :=
  modify (λ w, match store w !! dir with
               | Some _ => w
               | None => set_store (<[dir := ∅]> (store w)) w
               end).

(** Writing a file into a version directory. *)
Definition write_file (dir : string * string) (file : string) (d : FileData)
  : M unit :=
  modify (λ w, set_store
                 (<[dir := <[file := d]> (default ∅ (store w !! dir))]> (store w)) w).

(** [self.registry.models[name] = []] when the name is new, then
    [self.registry.models[name].append(v)]. *)
Definition append_version (name : string) (v : ModelVersion) : M unit :=
  modify (λ w,
    let line := default [] (models (registry w) !! name) in
    set_registry (set_models (<[name := line ++ [v]]> (models (registry w)))
                    (registry w)) w).

(** [register_model(...)]; [now_created] and [now_saved] are the two
    readings of [datetime.now()], for the record and for the save. *)
Definition register_model (now_created now_saved : string) (a : RegisterArgs)
  : M ModelVersion :=
  version_str <~ (λ w, lift (_get_next_version (registry w)
                               (a_model_name a) (a_bump a)) w) ;;
  let model_dir := (a_model_name a, version_str) in
  mkdir model_dir ;;;
  let model_file := "model.joblib" in
  write_file model_dir model_file (Joblib (a_model a)) ;;;
  let data_hash :=
    match a_training_data a with
    | Some d => _compute_data_hash d
    | None => ""
    end in
  let v :=
    {| version := version_str;
       model_name := a_model_name a;
       model_type := a_model_type a;
       created_at := now_created;
       created_by := a_created_by a;
       description := a_description a;
       metrics := a_metrics a;
       training_data_hash := data_hash;
       training_samples := a_training_samples a;
       feature_count := a_feature_count a;
       training_duration_seconds := a_training_duration a;
       model_file := model_file;
       metadata_file := "metadata.json";
       status := "active";
       is_production := false;
       tags := default [] (a_tags a) |} in
  write_file model_dir "metadata.json" (MetadataJson v) ;;;
  append_version (a_model_name a) v ;;;
  _save_registry now_saved ;;;
  ret v.

(** ** Promotion *)

Definition with_is_production (b : bool) (v : ModelVersion) : ModelVersion :=
  {| version := version v; model_name := model_name v;
     model_type := model_type v; created_at := created_at v;
     created_by := created_by v; description := description v;
     metrics := metrics v; training_data_hash := training_data_hash v;
     training_samples := training_samples v;
     feature_count := feature_count v;
     training_duration_seconds := training_duration_seconds v;
     model_file := model_file v; metadata_file := metadata_file v;
     status := status v; is_production := b; tags := tags v |}.

(** The [for v in self.registry.models[model_name]] loop of
    [promote_to_production]: every record's flag is rewritten, and
    [found] is set once a record carries the version. *)
Fixpoint promote_loop (ver : string) (line : list ModelVersion) (found : bool)
  : list ModelVersion * bool :=
  match line with
  | [] => ([], found)
  | v :: rest =>
      if decide (version v = ver) then
        let '(rest', found') := promote_loop ver rest true in
        (with_is_production true v :: rest', found')
      else
        let '(rest', found') := promote_loop ver rest found in
        (with_is_production false v :: rest', found')
  end.

(** [promote_to_production(model_name, version)] *)
Definition promote_to_production (now : string) (name ver : string) : M unit :=
  line_opt <~ gets (λ w, models (registry w) !! name) ;;
  match line_opt with
  | None => raise (ValueError ("Model " +:+ name +:+ " not found"))
  | Some line =>
      let '(line', found) := promote_loop ver line false in
      modify (λ w, set_registry
                     (set_models (<[name := line']> (models (registry w)))
                        (registry w)) w) ;;;
      if found then
        modify (λ w, set_registry
                       (set_current_production
                          (<[name := ver]> (current_production (registry w)))
                          (registry w)) w) ;;;
        _save_registry now
      else
        raise (ValueError ("Version " +:+ ver +:+ " not found"))
  end.

(** ** Loading *)

(** [joblib.load(base_dir / name / version / model_file)] *)
Definition joblib_load (w : World) (name ver file : string) : result Artifact :=
  match store w !! (name, ver) ≫= (λ dir, dir !! file) with
  | Some (Joblib a) => Ok a
  | _ => Raise OSError
  end.

(** [load_model(model_name, version=None)]; it reads the world and
    changes nothing. *)
Definition load_model (w : World) (name : string) (ver : option string)
  : result (Artifact * ModelVersion) :=
  match models (registry w) !! name with
  | None => Raise (ValueError ("Model " +:+ name +:+ " not found in registry"))
  | Some line =>
      let chosen :=
        match ver with
        | Some v => Ok v
        | None =>
            (* Try production first, then latest *)
            match current_production (registry w) !! name with
            | Some v => Ok v
            | None =>
                match last line with
                | Some latest => Ok (version latest)
                | None => Raise IndexError
                end
            end
        end in
      match chosen with
      | Raise e => Raise e
      | Ok v =>
          match List.find (λ r, bool_decide (version r = v)) line with
          | None =>
              Raise (ValueError ("Version " +:+ v +:+ " not found for model "
                                   +:+ name))
          | Some version_info =>
              match joblib_load w name v (model_file version_info) with
              | Ok model => Ok (model, version_info)
              | Raise e => Raise e
              end
          end
      end
  end.

(** [get_production_models()]: one entry per production pointer whose
    model loads; a load that raises is logged and left out. *)
Definition get_production_models (w : World)
  : gmap string (Artifact * ModelVersion) :=
  map_imap (λ name ver,
              match load_model w name (Some ver) with
              | Ok r => Some r
              | Raise _ => None
              end)
           (current_production (registry w)).

(** ** Comparison *)

Record MetricComparison := {
  mc_v1 : float;
  mc_v2 : float;
  mc_diff : float;
  mc_improved : bool
}.

Record Comparison := {
  cmp_version1 : string;
  cmp_version2 : string;
  cmp_created_at_diff : Z;
  cmp_metrics_comparison : gmap string MetricComparison;
  cmp_training_samples_diff : Z;
  cmp_feature_count_diff : Z
}.

(** The lookup loop of [compare_versions]: an [if]/[elif] pair, so a
    record is bound to the first slot or else to the second. *)
Fixpoint compare_lookup (version1 version2 : string) (line : list ModelVersion)
    (v1 v2 : option ModelVersion) : option ModelVersion * option ModelVersion :=
  match line with
  | [] => (v1, v2)
  | v :: rest =>
      if decide (version v = version1) then
        compare_lookup version1 version2 rest (Some v) v2
      else if decide (version v = version2) then
        compare_lookup version1 version2 rest v1 (Some v)
      else
        compare_lookup version1 version2 rest v1 v2
  end.

(** The per-metric entries: one for each key of either metrics dict,
    a missing value read as [0]. *)
Definition metrics_comparison (m1 m2 : gmap string float)
  : gmap string MetricComparison :=
  merge (λ o1 o2,
           match o1, o2 with
           | None, None => None
           | _, _ =>
               let val1 := default fzero o1 in
               let val2 := default fzero o2 in
               Some {| mc_v1 := val1; mc_v2 := val2;
                       mc_diff := fsub val2 val1;
                       mc_improved := fgt val2 val1 |}
           end) m1 m2.

(** [compare_versions(model_name, version1, version2)] *)
Definition compare_versions (w : World) (name version1 version2 : string)
  : result Comparison :=
  let line := default [] (models (registry w) !! name) in
  match compare_lookup version1 version2 line None None with
  | (Some v1, Some v2) =>
      match days_between (created_at v1) (created_at v2) with
      | None => Raise BuiltinValueError
      | Some days =>
          Ok {| cmp_version1 := version1;
                cmp_version2 := version2;
                cmp_created_at_diff := days;
                cmp_metrics_comparison :=
                  metrics_comparison (metrics v1) (metrics v2);
                cmp_training_samples_diff :=
                  training_samples v2 - training_samples v1;
                cmp_feature_count_diff :=
                  feature_count v2 - feature_count v1 |}
      end
  | _ => Raise (ValueError "One or both versions not found")
  end.

(** ** Lineage export *)

(** The dict appended to [version_history] for one record. *)
Definition lineage_entry (v : ModelVersion) : LineageEntry :=
  {| le_version := version v;
     le_created_at := created_at v;
     le_created_by := created_by v;
     le_description := description v;
     le_status := status v;
     le_is_production := is_production v;
     le_training_data_hash := training_data_hash v;
     le_training_samples := training_samples v;
     le_metrics := metrics v |}.

(** [export_lineage(model_name, output_path)] *)
Definition export_lineage (now : string) (name output_path : string) : M unit :=
  line_opt <~ gets (λ w, models (registry w) !! name) ;;
  match line_opt with
  | None => raise (ValueError ("Model " +:+ name +:+ " not found"))
  | Some line =>
      production <~ gets (λ w, current_production (registry w) !! name) ;;
      let lineage :=
        {| lin_model_name := name;
           lin_generated_at := now;
           lin_total_versions := Z.of_nat (length line);
           lin_current_production := production;
           lin_version_history := lineage_entry <$> line |} in
      modify (λ w, set_reports (<[output_path := lineage]> (reports w)) w)
  end.

(** ** Retention *)

(** [l[start:]] with Python's treatment of a negative or too large
    start. *)
Definition py_slice_from {A} (start : Z) (l : list A) : list A :=
  let len := Z.of_nat (length l) in
  let i := if start <? 0 then Z.max (len + start) 0 else Z.min start len in
  drop (Z.to_nat i) l.

(** [l.remove(x)]: the first element equal to [x] is dropped; [None]
    when there is none ([ValueError]). *)
Fixpoint list_remove_first (x : ModelVersion) (l : list ModelVersion)
  : option (list ModelVersion) :=
  match l with
  | [] => None
  | y :: l' =>
      if decide (y = x) then Some l'
      else (y ::.) <$> list_remove_first x l'
  end.

(** [shutil.rmtree(version_dir)] *)
Definition rmtree (dir : string * string) : M unit :=
  λ w, if decide (dir ∈ locked w) then (Raise OSError, w)
       else (Ok tt, set_store (delete dir (store w)) w).

(** [self.registry.models[model_name].remove(v)] *)
Definition remove_record (name : string) (v : ModelVersion) : M unit :=
  line_opt <~ gets (λ w, models (registry w) !! name) ;;
  match line_opt with
  | None => raise KeyError
  | Some line =>
      match list_remove_first v line with
      | None => raise (ValueError "list.remove(x): x not in list")
      | Some line' =>
          modify (λ w, set_registry
                         (set_models (<[name := line']> (models (registry w)))
                            (registry w)) w)
      end
  end.

(** The body of the [try] in the loop of [cleanup_old_versions]:
    the version directory is removed when it exists, then the record
    is removed from the line, then the counter is incremented. *)
Definition cleanup_body (name : string) (v : ModelVersion) (removed : Z) : M Z :=
  let version_dir := (name, version v) in
  dir_exists <~ gets (λ w, bool_decide (is_Some (store w !! version_dir))) ;;
  (if dir_exists : bool then rmtree version_dir else ret tt) ;;;
  remove_record name v ;;;
  ret (removed + 1).

(** The [for v in to_remove] loop of [cleanup_old_versions]; an
    exception of the body is logged and the loop goes on. *)
Fixpoint cleanup_loop (name : string) (to_remove : list ModelVersion)
    (removed : Z) : M Z :=
  match to_remove with
  | [] => ret removed
  | v :: rest =>
      removed' <~ try_except (cleanup_body name v removed)
                             (λ _, ret removed) ;;
      cleanup_loop name rest removed'
  end.

(** The records [cleanup_old_versions] sets out to remove: those not
    equal to a record of the slice [versions[-keep_last_n:]], minus,
    when [keep_production] holds and the production pointer is a
    non-empty string, those carrying the production version. *)
Definition removal_candidates (versions : list ModelVersion)
    (production_version : option string) (keep_last_n : Z)
    (keep_production : bool) : list ModelVersion :=
  let to_keep := py_slice_from (- keep_last_n) versions in
  let to_remove := filter (λ v, v ∉ to_keep) versions in
  match production_version with
  | Some pv =>
      if keep_production && bool_decide (pv ≠ "") then
        filter (λ v, version v ≠ pv) to_remove
      else to_remove
  | None => to_remove
  end.

(** [cleanup_old_versions(model_name, keep_last_n, keep_production)] *)
Definition cleanup_old_versions (now : string) (name : string)
    (keep_last_n : Z) (keep_production : bool) : M Z :=
  line_opt <~ gets (λ w, models (registry w) !! name) ;;
  match line_opt with
  | None => ret 0
  | Some versions =>
      production_version <~ gets (λ w, current_production (registry w) !! name) ;;
      let to_remove :=
        removal_candidates versions production_version keep_last_n
          keep_production in
      removed <~ cleanup_loop name to_remove 0 ;;
      _save_registry now ;;;
      ret removed
  end.

(** ** Sequences of calls *)

Inductive Call :=
  | CallRegister (now_created now_saved : string) (a : RegisterArgs)
  | CallPromote (now : string) (name ver : string).

(** The world after a call, whether it returned or raised. *)
Definition run_call (c : Call) (w : World) : World :=
  match c with
  | CallRegister now_created now_saved a =>
      (register_model now_created now_saved a w).2
  | CallPromote now name ver =>
      (promote_to_production now name ver w).2
  end.

Definition run_calls (cs : list Call) (w : World) : World :=
  foldl (λ w c, run_call c w) w cs.

(** The line of a model name, empty when the name is not registered. *)
Definition line_of (reg : ModelRegistry) (name : string) : list ModelVersion :=
  default [] (models reg !! name).

(** ** Specification-side notions *)

(** The version string built from three integers. *)
Definition format_version (t : Z * Z * Z) : string :=
  let '(major, minor, patch) := t in
  py_str major +:+ "." +:+ py_str minor +:+ "." +:+ py_str patch.

(** The bump rule in the specification's words: [(major+1,0,0)] for
    [major], [(major,minor+1,0)] for [minor], [(major,minor,patch+1)]
    for [patch], which is also the default. *)
Definition bump_triple (bump : string) (t : Z * Z * Z) : Z * Z * Z :=
  let '(major, minor, patch) := t in
  if decide (bump = "major") then (major + 1, 0, 0)
  else if decide (bump = "minor") then (major, minor + 1, 0)
  else (major, minor, patch + 1).

(** [ts] are the parsed versions of [line], record by record. *)
Definition parsed_line (line : list ModelVersion) (ts : list (Z * Z * Z)) : Prop :=
  Forall2 (λ v t, parse_version (version v) = Some t) line ts.

(** Every version of the line parses, and each is below all later
    ones under triple-integer comparison. *)
Definition strictly_increasing (line : list ModelVersion) : Prop :=
  ∃ ts, parsed_line line ts ∧ StronglySorted triple_lt ts.

(** The line [promote_to_production] leaves: the flag of a record
    says whether it carries the promoted version. *)
Definition promoted_line (ver : string) (line : list ModelVersion)
  : list ModelVersion :=
  (λ v, with_is_production (bool_decide (version v = ver)) v) <$> line.

(** The records of a line whose [is_production] flag is set. *)
Definition production_records (line : list ModelVersion) : list ModelVersion :=
  filter (λ v, is_production v = true) line.

(** A line agrees with the production pointer of its model. *)
Definition line_consistent (production : option string)
    (line : list ModelVersion) : Prop :=
  strictly_increasing line ∧
  ∀ v, v ∈ line → is_production v = true → production = Some (version v).

Definition registry_consistent (reg : ModelRegistry) : Prop :=
  ∀ name line, models reg !! name = Some line →
    line_consistent (current_production reg !! name) line.

(** Every production pointer is a non-empty string, the condition
    under which Python takes [production_version] as true. *)
Definition pointers_nonempty (reg : ModelRegistry) : Prop :=
  ∀ name pv, current_production reg !! name = Some pv → pv ≠ "".

(** The calls of a sequence of registrations, each with its two clock
    readings. *)
Definition register_calls (regs : list (string * string * RegisterArgs))
  : list Call :=
  (λ '(now_created, now_saved, a), CallRegister now_created now_saved a) <$> regs.

(** How many registrations of a sequence are for the model [name]. *)
Definition registrations_of (name : string)
    (regs : list (string * string * RegisterArgs)) : nat :=
  length (filter (λ r, a_model_name r.2 = name) regs).

(** ** Sample data *)

(** A world right after [GATIModelVersioning(base_dir)] on an empty
    base directory. *)
Definition fresh_world : World :=
  {| registry := new_registry; registry_file := None; store := ∅;
     locked := ∅; reports := ∅ |}.

(** A record with the given version, production flag and feature
    count, every other field at its default. *)
Definition sample_record (name ver : string) (flag : bool) (features : Z)
  : ModelVersion :=
  {| version := ver; model_name := name; model_type := "classification";
     created_at := "2024-01-01T00:00:00"; created_by := "system";
     description := ""; metrics := ∅; training_data_hash := "";
     training_samples := 0; feature_count := features;
     training_duration_seconds := fzero; model_file := "model.joblib";
     metadata_file := "metadata.json"; status := "active";
     is_production := flag; tags := [] |}.

(** Arguments of a registration of [model] under [name]. *)
Definition sample_args (model : Artifact) (name bump : string) : RegisterArgs :=
  {| a_model := model; a_model_name := name;
     a_model_type := "classification"; a_description := "";
     a_metrics := ∅; a_training_data := None; a_training_samples := 0;
     a_feature_count := 0; a_training_duration := fzero;
     a_created_by := "system"; a_bump := bump; a_tags := None |}.

(** A world whose registry holds the given lines and pointers, with
    the same document on disk. *)
Definition sample_world (ms : gmap string (list ModelVersion))
    (cp : gmap string string) : World :=
  let reg := {| models := ms; current_production := cp;
                last_updated := "2024-01-01T00:00:00" |} in
  {| registry := reg; registry_file := Some (Document (to_dict reg));
     store := ∅; locked := ∅; reports := ∅ |}.

(** ** Further operations of the registry *)

Definition with_status (st : string) (v : ModelVersion) : ModelVersion :=
  {| version := version v; model_name := model_name v;
     model_type := model_type v; created_at := created_at v;
     created_by := created_by v; description := description v;
     metrics := metrics v; training_data_hash := training_data_hash v;
     training_samples := training_samples v;
     feature_count := feature_count v;
     training_duration_seconds := training_duration_seconds v;
     model_file := model_file v; metadata_file := metadata_file v;
     status := st; is_production := is_production v; tags := tags v |}.

(** The loop of [deprecate_version]: the first record carrying the
    version gets the status ['deprecated'], and the loop breaks. *)
Fixpoint deprecate_loop (ver : string) (line : list ModelVersion)
  : list ModelVersion :=
  match line with
  | [] => []
  | v :: rest =>
      if decide (version v = ver) then with_status "deprecated" v :: rest
      else v :: deprecate_loop ver rest
  end.

(** [deprecate_version(model_name, version)]: the loop runs over
    [self.registry.models.get(model_name, [])], so an unknown name is
    no error; the registry is saved in every case. *)
Definition deprecate_version (now : string) (name ver : string) : M unit :=
  modify (λ w,
    match models (registry w) !! name with
    | Some line =>
        set_registry
          (set_models (<[name := deprecate_loop ver line]> (models (registry w)))
             (registry w)) w
    | None => w
    end) ;;;
  _save_registry now.

(** Python's truth value of an optional string argument: [None] and
    [''] are false. *)
Definition given (o : option string) : bool :=
  match o with
  | Some s => bool_decide (s ≠ "")
  | None => false
  end.

(** The inner loop of [list_versions] on one model line. *)
Definition list_versions_of (status_filter : option string)
    (v_list : list ModelVersion) : list ModelVersion :=
  filter (λ v, ¬ (given status_filter = true ∧ Some (status v) ≠ status_filter))
         v_list.

(** [list_versions(model_name=None, status=None)].  The lines are
    visited in the order of the [models] dict; the map of the model
    keeps no insertion order, so the order of the result across model
    names is not the one of Python, the order inside a line is. *)
Definition list_versions (reg : ModelRegistry)
    (name_filter status_filter : option string) : list ModelVersion :=
  map_to_list (models reg) ≫=
    (λ '(name, v_list),
       if given name_filter && bool_decide (Some name ≠ name_filter) then []
       else list_versions_of status_filter v_list).

(** ** Callers: the training script and the API's model manager *)

(** [register_model] of [train_all.py]: a new [GATIModelVersioning]
    object is built on the model directory (so its registry is the one
    loaded from disk, whatever registry object [w] carries), the model
    is registered with the defaults of the registry's [register_model],
    and promoted when [deploy] is set; the version string is returned.
    [now_text] is the formatted time of the description. *)
Definition train_register_model (now_text now_created now_saved now_promoted : string)
    (model : Artifact) (name type : string) (model_metrics : gmap string float)
    (duration : float) (deploy : bool) : M string :=
  λ w, match init (registry_file w) (store w) (locked w) (reports w) with
       | Raise e => (Raise e, w)
       | Ok w0 =>
           (v <~ register_model now_created now_saved
                   {| a_model := model; a_model_name := name;
                      a_model_type := type;
                      a_description := "Trained on " +:+ now_text;
                      a_metrics := model_metrics; a_training_data := None;
                      a_training_samples := 0; a_feature_count := 0;
                      a_training_duration := duration;
                      a_created_by := "train_all.py"; a_bump := "patch";
                      a_tags := None |} ;;
            (if deploy then promote_to_production now_promoted name (version v)
             else ret tt) ;;;
            ret (version v)) w0
       end.

(** [ModelManager] of [api/main.py]. *)
Record ModelManager := {
  mm_models : gmap string Artifact;
  mm_model_info : gmap string ModelVersion;
  is_initialized : bool
}.

(** [ModelManager()] *)
Definition new_manager : ModelManager :=
  {| mm_models := ∅; mm_model_info := ∅; is_initialized := false |}.

(** [ModelManager.initialize()], on the disk state of [w]: nothing is
    done when the manager is initialized; otherwise every production
    model that loads is stored under its name, over an older entry, and
    the manager is marked initialized.  An exception is caught and
    leaves the manager as it was. *)
Definition initialize (w : World) (mm : ModelManager) : ModelManager :=
  if is_initialized mm then mm
  else
    match init (registry_file w) (store w) (locked w) (reports w) with
    | Raise _ => mm
    | Ok w0 =>
        let production_models := get_production_models w0 in
        {| mm_models := (fst <$> production_models) ∪ mm_models mm;
           mm_model_info := (snd <$> production_models) ∪ mm_model_info mm;
           is_initialized := true |}
    end.

(** [ModelManager.get_model(model_type)] *)
Definition get_model (mm : ModelManager) (model_type : string)
  : option Artifact * option ModelVersion :=
  let model_name :=
    if decide (model_type = "anomaly") then "anomaly_detector"
    else if decide (model_type = "risk") then "risk_scorer"
    else if decide (model_type = "forecast") then "forecaster"
    else model_type in
  (mm_models mm !! model_name, mm_model_info mm !! model_name).

(** ** Sequences of operations of every kind *)

Inductive Op :=
  | OpRegister (now_created now_saved : string) (a : RegisterArgs)
  | OpPromote (now : string) (name ver : string)
  | OpDeprecate (now : string) (name ver : string)
  | OpCleanup (now : string) (name : string) (keep_last_n : Z)
      (keep_production : bool)
  | OpExport (now : string) (name output_path : string).

(** The world after an operation, whether it returned or raised. *)
Definition run_op (o : Op) (w : World) : World :=
  match o with
  | OpRegister now_created now_saved a =>
      (register_model now_created now_saved a w).2
  | OpPromote now name ver => (promote_to_production now name ver w).2
  | OpDeprecate now name ver => (deprecate_version now name ver w).2
  | OpCleanup now name keep_last_n keep_production =>
      (cleanup_old_versions now name keep_last_n keep_production w).2
  | OpExport now name output_path => (export_lineage now name output_path w).2
  end.

Definition run_ops (os : list Op) (w : World) : World :=
  foldl (λ w o, run_op o w) w os.

(** * Properties *)

(** ** Version strings *)

Lemma split_on_free sep s : occurs sep s = false → split_on sep s = [s].
Proof.
  induction s as [|c s IH]; simpl; [done|].
  intros [Hc Hs]%orb_false_elim. apply Ascii.eqb_neq in Hc.
  rewrite decide_False by done. by rewrite IH.
Qed.

Lemma split_on_app sep a b :
  occurs sep a = false →
  split_on sep (a +:+ String sep b) = a :: split_on sep b.
Proof.
  induction a as [|c a IH]; simpl.
  - intros _. by rewrite decide_True.
  - intros [Hc Hs]%orb_false_elim. apply Ascii.eqb_neq in Hc.
    rewrite decide_False by done. by rewrite IH.
Qed.

Lemma occurs_dot_uint d : occurs "." (NilEmpty.string_of_uint d) = false.
Proof. induction d; simpl; auto. Qed.

Lemma occurs_dot_py_str z : occurs "." (py_str z) = false.
Proof.
  unfold py_str. destruct (Z.to_int z) as [d|d]; simpl;
    destruct d; simpl; auto using occurs_dot_uint.
Qed.

Lemma py_int_py_str z : py_int (py_str z) = Some z.
Proof.
  unfold py_int, py_str.
  rewrite NilZero.isi.
  - simpl. by rewrite DecimalZ.of_to.
  - destruct z; simpl; [done| |done].
    intros [=Hp]. by destruct (DecimalPos.Unsigned.to_uint_nonnil p).
  - destruct z; simpl; [done|done|].
    intros [=Hp]. by destruct (DecimalPos.Unsigned.to_uint_nonnil p).
Qed.

(** A version written by the allocator reads back as its three
    components. *)
Lemma parse_version_format a b c :
  parse_version (py_str a +:+ "." +:+ py_str b +:+ "." +:+ py_str c)
  = Some (a, b, c).
Proof.
  unfold parse_version.
  change (py_str a +:+ "." +:+ py_str b +:+ "." +:+ py_str c)
    with (py_str a +:+ String "." (py_str b +:+ String "." (py_str c))).
  rewrite split_on_app by apply occurs_dot_py_str.
  rewrite split_on_app by apply occurs_dot_py_str.
  rewrite split_on_free by apply occurs_dot_py_str.
  simpl. by rewrite !py_int_py_str.
Qed.

Lemma format_version_parse t : parse_version (format_version t) = Some t.
Proof. destruct t as [[a b] c]. apply parse_version_format. Qed.

Lemma triple_lt_bump bump t : triple_lt t (bump_triple bump t).
Proof.
  destruct t as [[a b] c]. unfold bump_triple.
  repeat case_decide; simpl; lia.
Qed.

Lemma triple_lt_trans a b c : triple_lt a b → triple_lt b c → triple_lt a c.
Proof.
  destruct a as [[a1 a2] a3], b as [[b1 b2] b3], c as [[c1 c2] c3].
  simpl. lia.
Qed.

Lemma triple_lt_irrefl a : ¬ triple_lt a a.
Proof. destruct a as [[a1 a2] a3]. simpl. lia. Qed.

(** ** The allocator *)

Lemma next_version_first reg name bump :
  line_of reg name = [] → _get_next_version reg name bump = Ok "1.0.0".
Proof.
  unfold line_of, _get_next_version.
  destruct (models reg !! name) as [line|]; simpl; [|done].
  by intros ->.
Qed.

Lemma next_version_bump reg name bump latest t :
  last (line_of reg name) = Some latest →
  parse_version (version latest) = Some t →
  _get_next_version reg name bump = Ok (format_version (bump_triple bump t)).
Proof.
  unfold line_of, _get_next_version.
  destruct (models reg !! name) as [line|]; simpl; [|done].
  intros -> ->. destruct t as [[a b] c]. unfold bump_triple.
  repeat case_decide; reflexivity.
Qed.

(** ** Registration *)

Lemma register_model_raise now_created now_saved a w e :
  _get_next_version (registry w) (a_model_name a) (a_bump a) = Raise e →
  register_model now_created now_saved a w = (Raise e, w).
Proof. intros Hv. unfold register_model, bind, lift. by rewrite Hv. Qed.

Lemma register_model_ok now_created now_saved a w vs :
  _get_next_version (registry w) (a_model_name a) (a_bump a) = Ok vs →
  ∃ v w',
    register_model now_created now_saved a w = (Ok v, w') ∧
    version v = vs ∧ is_production v = false ∧
    models (registry w') =
      <[a_model_name a := line_of (registry w) (a_model_name a) ++ [v]]>
        (models (registry w)) ∧
    current_production (registry w') = current_production (registry w) ∧
    locked w' = locked w.
Proof.
  intros Hv. unfold register_model, bind, lift. rewrite Hv.
  unfold mkdir, modify.
  destruct (store w !! (a_model_name a, vs));
    (eexists _, _; split; [reflexivity|]; split_and!; reflexivity).
Qed.

(** ** Increasing lines *)

Lemma strictly_increasing_nil : strictly_increasing [].
Proof. exists []. split; constructor. Qed.

Lemma parsed_line_last line ts r :
  parsed_line line ts → last line = Some r →
  ∃ t, last ts = Some t ∧ parse_version (version r) = Some t.
Proof.
  intros Hp Hr. apply Forall2_last in Hp. rewrite Hr in Hp.
  inversion Hp; subst. eauto.
Qed.

Lemma strictly_increasing_snoc line v t' :
  strictly_increasing line →
  parse_version (version v) = Some t' →
  (∀ r t, last line = Some r → parse_version (version r) = Some t →
          triple_lt t t') →
  strictly_increasing (line ++ [v]).
Proof.
  intros (ts & Hp & Hs) Hv Hlast. exists (ts ++ [t']). split.
  - apply Forall2_app; [done|]. by repeat constructor.
  - apply StronglySorted_app_2; [|done|repeat constructor].
    intros x1 x2 Hx1 ->%list_elem_of_singleton.
    destruct (last ts) as [tl|] eqn:Htl.
    + assert (triple_lt tl t') as Hlt.
      { pose proof (Forall2_last _ _ _ Hp) as Hl. rewrite Htl in Hl.
        inversion Hl as [r ? Hr Heq|]; subst. symmetry in Heq. eauto. }
      apply last_Some in Htl as [ts' ->].
      apply elem_of_app in Hx1 as [Hx1| ->%list_elem_of_singleton]; [|done].
      apply triple_lt_trans with tl; [|done].
      eapply StronglySorted_app_1_elem_of; [done..|]. by left.
    + apply last_None in Htl. subst. by apply not_elem_of_nil in Hx1.
Qed.

Lemma next_version_increasing reg name bump :
  strictly_increasing (line_of reg name) →
  ∃ vs t', _get_next_version reg name bump = Ok vs ∧
           parse_version vs = Some t' ∧
           ∀ r t, last (line_of reg name) = Some r →
                  parse_version (version r) = Some t → triple_lt t t'.
Proof.
  intros (ts & Hp & Hs).
  destruct (last (line_of reg name)) as [r|] eqn:Hr.
  - destruct (parsed_line_last _ _ _ Hp Hr) as (t & _ & Ht).
    exists (format_version (bump_triple bump t)), (bump_triple bump t).
    split_and!.
    + by eapply next_version_bump.
    + apply format_version_parse.
    + intros r' t' [= <-] Ht'. rewrite Ht in Ht'. injection Ht' as <-.
      apply triple_lt_bump.
  - apply last_None in Hr. exists "1.0.0", (1, 0, 0). split_and!.
    + by apply next_version_first.
    + reflexivity.
    + by intros r' t' Hr'.
Qed.

Lemma line_of_consistent reg name :
  registry_consistent reg → strictly_increasing (line_of reg name).
Proof.
  intros Hc. unfold line_of.
  destruct (models reg !! name) as [line|] eqn:Hl; simpl.
  - by destruct (Hc _ _ Hl).
  - apply strictly_increasing_nil.
Qed.

(** In a consistent registry a registration returns, appends one
    record with a larger version, and keeps the registry consistent. *)
Lemma register_model_consistent now_created now_saved a w :
  registry_consistent (registry w) →
  ∃ v w',
    register_model now_created now_saved a w = (Ok v, w') ∧
    is_production v = false ∧
    models (registry w') =
      <[a_model_name a := line_of (registry w) (a_model_name a) ++ [v]]>
        (models (registry w)) ∧
    current_production (registry w') = current_production (registry w) ∧
    locked w' = locked w ∧
    registry_consistent (registry w').
Proof.
  intros Hc.
  pose proof (line_of_consistent _ (a_model_name a) Hc) as Hinc.
  destruct (next_version_increasing _ _ (a_bump a) Hinc)
    as (vs & t' & Hvs & Hparse & Hlt).
  destruct (register_model_ok now_created now_saved a w vs Hvs)
    as (v & w' & Hrun & Hv & Hflag & Hmodels & Hcp & Hlk).
  exists v, w'. split_and!; try done.
  intros name line. rewrite Hmodels, Hcp.
  destruct (decide (a_model_name a = name)) as [<-|Hne].
  - rewrite lookup_insert_eq. intros [= <-]. split.
    + eapply strictly_increasing_snoc; [done| |done]. by rewrite Hv.
    + intros v' [Hin| ->%list_elem_of_singleton]%elem_of_app Hprod.
      * unfold line_of in Hin.
        destruct (models (registry w) !! a_model_name a) as [old|] eqn:Hold;
          simpl in Hin; [|by apply not_elem_of_nil in Hin].
        by apply (Hc _ _ Hold).
      * congruence.
  - rewrite lookup_insert_ne by done. apply Hc.
Qed.

(** ** Promotion *)

Lemma promote_loop_spec ver line found :
  promote_loop ver line found
  = (promoted_line ver line, found || bool_decide (ver ∈ version <$> line)).
Proof.
  revert found. induction line as [|v rest IH]; intros found; simpl.
  - by rewrite orb_false_r.
  - destruct (decide (version v = ver)) as [Hv|Hv]; rewrite IH.
    + rewrite (bool_decide_eq_true_2 (version v = ver)) by done.
      rewrite (bool_decide_eq_true_2 (ver ∈ _ :: _))
        by (subst; apply list_elem_of_here).
      by rewrite orb_true_r.
    + rewrite (bool_decide_eq_false_2 (version v = ver)) by done.
      do 2 f_equal. apply bool_decide_ext.
      rewrite elem_of_cons. split; [by right|intros [?|?]; [congruence|done]].
Qed.

Lemma promote_absent now name ver w :
  models (registry w) !! name = None →
  promote_to_production now name ver w
  = (Raise (ValueError ("Model " +:+ name +:+ " not found")), w).
Proof.
  intros Hl. unfold promote_to_production, bind, gets. by rewrite Hl.
Qed.

Lemma promote_missing now name ver w line :
  models (registry w) !! name = Some line →
  ver ∉ version <$> line →
  promote_to_production now name ver w
  = (Raise (ValueError ("Version " +:+ ver +:+ " not found")),
     set_registry
       (set_models (<[name := promoted_line ver line]> (models (registry w)))
          (registry w)) w).
Proof.
  intros Hl Hver. unfold promote_to_production, bind, gets. rewrite Hl.
  rewrite promote_loop_spec. by rewrite bool_decide_eq_false_2.
Qed.

Lemma promote_found now name ver w line :
  models (registry w) !! name = Some line →
  ver ∈ version <$> line →
  promote_to_production now name ver w
  = (Ok tt,
     run_steps (save_steps now)
       (set_registry
          {| models := <[name := promoted_line ver line]> (models (registry w));
             current_production :=
               <[name := ver]> (current_production (registry w));
             last_updated := last_updated (registry w) |} w)).
Proof.
  intros Hl Hver. unfold promote_to_production, bind, gets. rewrite Hl.
  rewrite promote_loop_spec. by rewrite bool_decide_eq_true_2.
Qed.

Lemma promoted_line_versions ver line :
  version <$> promoted_line ver line = version <$> line.
Proof.
  unfold promoted_line. rewrite <- list_fmap_compose.
  by apply list_fmap_ext.
Qed.

Lemma promoted_line_increasing ver line :
  strictly_increasing line → strictly_increasing (promoted_line ver line).
Proof.
  intros (ts & Hp & Hs). exists ts. split; [|done].
  unfold parsed_line, promoted_line. by apply Forall2_fmap_l.
Qed.

Lemma promoted_line_flag ver line v :
  v ∈ promoted_line ver line → is_production v = true → version v = ver.
Proof.
  intros (v0 & -> & Hin)%list_elem_of_fmap. simpl.
  by intros ?%bool_decide_eq_true.
Qed.

Lemma promote_consistent now name ver w :
  registry_consistent (registry w) →
  registry_consistent (registry (promote_to_production now name ver w).2).
Proof.
  intros Hc.
  destruct (models (registry w) !! name) as [line|] eqn:Hl.
  - destruct (Hc _ _ Hl) as [Hinc _].
    destruct (decide (ver ∈ version <$> line)) as [Hin|Hnot].
    + rewrite (promote_found _ _ _ _ _ Hl Hin). simpl.
      intros name' line'. simpl.
      destruct (decide (name = name')) as [<-|Hne].
      * rewrite !lookup_insert_eq. intros [= <-]. split.
        -- by apply promoted_line_increasing.
        -- intros v Hv Hflag.
           by rewrite (promoted_line_flag _ _ _ Hv Hflag).
      * rewrite !lookup_insert_ne by done. apply Hc.
    + rewrite (promote_missing _ _ _ _ _ Hl Hnot). simpl.
      intros name' line'. simpl.
      destruct (decide (name = name')) as [<-|Hne].
      * rewrite lookup_insert_eq. intros [= <-]. split.
        -- by apply promoted_line_increasing.
        -- intros v (v0 & -> & Hv0)%list_elem_of_fmap Hflag. simpl in Hflag.
           apply bool_decide_eq_true in Hflag. exfalso. apply Hnot.
           rewrite <- Hflag. by apply list_elem_of_fmap_2.
      * rewrite lookup_insert_ne by done. apply Hc.
  - by rewrite promote_absent.
Qed.

Lemma run_call_consistent c w :
  registry_consistent (registry w) →
  registry_consistent (registry (run_call c w)).
Proof.
  intros Hc. destruct c as [now_created now_saved a|now name ver]; simpl.
  - destruct (register_model_consistent now_created now_saved a w Hc)
      as (v & w' & -> & _ & _ & _ & _ & Hc'). done.
  - by apply promote_consistent.
Qed.

Lemma run_calls_consistent cs w :
  registry_consistent (registry w) →
  registry_consistent (registry (run_calls cs w)).
Proof.
  revert w. induction cs as [|c cs IH]; intros w Hc; simpl; [done|].
  apply IH. by apply run_call_consistent.
Qed.

Lemma new_registry_consistent : registry_consistent new_registry.
Proof. intros name line. simpl. by rewrite lookup_empty. Qed.

Lemma strictly_increasing_NoDup line :
  strictly_increasing line → NoDup (version <$> line).
Proof.
  intros (ts & Hp & Hs). revert Hs.
  induction Hp as [|v t line ts Hv Hp IH]; intros Hs; simpl.
  - constructor.
  - apply StronglySorted_cons in Hs as [Hall Hs].
    constructor; [|by apply IH].
    intros (v' & Heq & Hin)%list_elem_of_fmap.
    apply list_elem_of_lookup_1 in Hin as [i Hi].
    destruct (Forall2_lookup_l _ _ _ _ _ Hp Hi) as (t' & Ht' & Hv').
    rewrite <- Heq, Hv in Hv'. injection Hv' as <-.
    apply (triple_lt_irrefl t).
    eapply Forall_forall; [exact Hall|]. by eapply list_elem_of_lookup_2.
Qed.

Lemma production_records_at_most_one pv line :
  NoDup (version <$> line) →
  (∀ v, v ∈ line → is_production v = true → version v = pv) →
  (length (production_records line) ≤ 1)%nat.
Proof.
  unfold production_records.
  induction line as [|v line IH]; simpl; intros Hnd Hpv; [lia|].
  apply NoDup_cons in Hnd as [Hv Hnd].
  rewrite filter_cons. case_decide as Hflag; simpl.
  - destruct (filter _ line) as [|v' rest] eqn:Hf; simpl; [lia|].
    exfalso. apply Hv.
    assert (v' ∈ filter (λ v, is_production v = true) line) as Hin
      by (rewrite Hf; left).
    apply list_elem_of_filter in Hin as [Hflag' Hin].
    rewrite (Hpv v) by (done || left).
    rewrite <- (Hpv v') by (done || by right).
    by apply list_elem_of_fmap_2.
  - apply IH; [done|]. intros v' Hin. apply Hpv. by right.
Qed.

Lemma register_calls_length regs name w :
  registry_consistent (registry w) →
  length (line_of (registry (run_calls (register_calls regs) w)) name)
  = (length (line_of (registry w) name) + registrations_of name regs)%nat.
Proof.
  revert w. induction regs as [|[[now_created now_saved] a] regs IH];
    intros w Hc; simpl.
  - unfold registrations_of. simpl. lia.
  - destruct (register_model_consistent now_created now_saved a w Hc)
      as (v & w' & Hrun & _ & Hmodels & _ & _ & Hc').
    rewrite Hrun. simpl. rewrite (IH w' Hc').
    unfold registrations_of. rewrite filter_cons. simpl.
    unfold line_of at 1. rewrite Hmodels.
    case_decide as Hname.
    + subst name. rewrite lookup_insert_eq. simpl.
      rewrite length_app. simpl. lia.
    + rewrite lookup_insert_ne by done. fold (line_of (registry w) name). lia.
Qed.

(** * The claims *)

(** C1. After any sequence of [register_model] and
    [promote_to_production] calls on a new registry, whether the
    calls return or raise, every model name has at most one record
    whose [is_production] flag is set, and the version of such a
    record is the production pointer of that name. *)
Theorem at_most_one_production (cs : list Call)
    (file : option FileContents)
    (st : gmap (string * string) (gmap string FileData))
    (lk : gset (string * string)) (rp : gmap string Lineage)
    (name : string) :
  let w := run_calls cs {| registry := new_registry; registry_file := file;
                           store := st; locked := lk; reports := rp |} in
  let line := line_of (registry w) name in
  (length (production_records line) ≤ 1)%nat ∧
  ∀ v, v ∈ production_records line →
       current_production (registry w) !! name = Some (version v).
Proof.
  intros w line.
  assert (registry_consistent (registry w)) as Hc.
  { apply run_calls_consistent. simpl. apply new_registry_consistent. }
  subst line. unfold line_of.
  destruct (models (registry w) !! name) as [line|] eqn:Hl; simpl.
  - destruct (Hc _ _ Hl) as [Hinc Hflag].
    destruct (current_production (registry w) !! name) as [pv|] eqn:Hpv.
    + split.
      * apply (production_records_at_most_one pv).
        { by apply strictly_increasing_NoDup. }
        intros v Hin Hprod. specialize (Hflag v Hin Hprod). congruence.
      * intros v [Hprod Hin]%list_elem_of_filter. by apply Hflag.
    + assert (production_records line = []) as ->.
      { unfold production_records.
        destruct (filter _ line) as [|v rest] eqn:Hf; [done|]. exfalso.
        assert (v ∈ filter (λ v, is_production v = true) line) as Hin
          by (rewrite Hf; left).
        apply list_elem_of_filter in Hin as [Hprod Hin].
        by specialize (Hflag v Hin Hprod). }
      split; [simpl; lia|]. intros v Hin. by apply not_elem_of_nil in Hin.
  - split; [simpl; lia|]. intros v Hin. by apply not_elem_of_nil in Hin.
Qed.

(** C3. [_get_next_version] returns [1.0.0] for an empty line whatever
    the bump; otherwise, with the latest version parsed as
    (major, minor, patch), it returns the version of the bumped triple
    ((major+1,0,0) for major, (major,minor+1,0) for minor,
    (major,minor,patch+1) otherwise).  Hence every sequence of
    registrations on a new registry returns each time and leaves, for
    every model name, one record per registration of that name with
    strictly increasing versions; and a patch bump after 1.2.3 gives
    1.2.4. *)
Theorem next_version_rule :
  (∀ reg name bump,
     line_of reg name = [] → _get_next_version reg name bump = Ok "1.0.0") ∧
  (∀ reg name bump latest t,
     last (line_of reg name) = Some latest →
     parse_version (version latest) = Some t →
     _get_next_version reg name bump
     = Ok (format_version (bump_triple bump t))) ∧
  (∀ regs file st lk rp name,
     let w := run_calls (register_calls regs)
                {| registry := new_registry; registry_file := file;
                   store := st; locked := lk; reports := rp |} in
     strictly_increasing (line_of (registry w) name) ∧
     length (line_of (registry w) name) = registrations_of name regs) ∧
  (∀ reg name latest,
     last (line_of reg name) = Some latest →
     version latest = "1.2.3" →
     _get_next_version reg name "patch" = Ok "1.2.4").
Proof.
  split_and!.
  - apply next_version_first.
  - apply next_version_bump.
  - intros regs file st lk rp name w. split.
    + apply line_of_consistent, run_calls_consistent. simpl.
      apply new_registry_consistent.
    + subst w. rewrite register_calls_length
        by (simpl; apply new_registry_consistent).
      unfold line_of. simpl. by rewrite lookup_empty.
  - intros reg name latest Hlast Hver.
    rewrite (next_version_bump reg name "patch" latest (1, 2, 3) Hlast)
      by (by rewrite Hver).
    reflexivity.
Qed.

(** C4. When the model has a line and no record of it carries the
    requested version, [promote_to_production] raises
    [ValueError("Version ... not found")], and neither the production
    pointers nor the registry document change. *)
Theorem promote_unknown_version now name ver w line :
  models (registry w) !! name = Some line →
  ver ∉ version <$> line →
  (promote_to_production now name ver w).1
  = Raise (ValueError ("Version " +:+ ver +:+ " not found")) ∧
  current_production (registry (promote_to_production now name ver w).2)
  = current_production (registry w) ∧
  registry_file (promote_to_production now name ver w).2 = registry_file w.
Proof.
  intros Hl Hver. by rewrite (promote_missing _ _ _ _ _ Hl Hver).
Qed.

Lemma compare_lookup_second_slot ver line v1 :
  (compare_lookup ver ver line v1 None).2 = None.
Proof.
  revert v1. induction line as [|v rest IH]; intros v1; simpl; [done|].
  destruct (decide (version v = ver)); by rewrite IH.
Qed.

Lemma compare_lookup_first_slot ver line v1 :
  is_Some v1 ∨ ver ∈ version <$> line →
  is_Some (compare_lookup ver ver line v1 None).1.
Proof.
  revert v1. induction line as [|v rest IH]; intros v1; simpl.
  - intros [?|Hin]; [done|]. by apply not_elem_of_nil in Hin.
  - intros Hor. destruct (decide (version v = ver)) as [Hv|Hv].
    + apply IH. left. by eexists.
    + apply IH. destruct Hor as [?|Hin]; [by left|right].
      apply elem_of_cons in Hin as [?|?]; [congruence|done].
Qed.

(** C10. Comparing a version that exists in a model's line with
    itself raises [ValueError("One or both versions not found")]: the
    lookup binds the matching record to the first slot only and the
    second slot stays [None]. *)
Theorem compare_versions_same_version w name ver line :
  models (registry w) !! name = Some line →
  ver ∈ version <$> line →
  (∃ v1, compare_lookup ver ver line None None = (Some v1, None)) ∧
  compare_versions w name ver ver
  = Raise (ValueError "One or both versions not found").
Proof.
  intros Hl Hin.
  pose proof (compare_lookup_second_slot ver line None) as H2.
  destruct (compare_lookup_first_slot ver line None (or_intror Hin))
    as [v1 H1].
  unfold compare_versions. rewrite Hl. simpl.
  destruct (compare_lookup ver ver line None None) as [o1 o2].
  simpl in H1, H2. subst o1 o2. eauto.
Qed.

(** C2 (as the code has it). [_save_registry] writes the document in
    place: nothing but [registry.json] is touched, the file is first
    truncated and then written.  A save that completes is what the
    next load returns.  A save interrupted before the file is opened
    leaves the document as it was; one interrupted after the file is
    opened and before the dump leaves an unreadable file, from which
    the next load returns an empty registry. *)
Theorem save_registry_in_place now w :
  (let w' := (_save_registry now w).2 in
   (_save_registry now w).1 = Ok tt ∧
   registry w' = set_last_updated now (registry w) ∧
   registry_file w' = Some (Document (to_dict (registry w'))) ∧
   _load_registry (registry_file w') = Ok (registry w')) ∧
  (∀ k, store (interrupted_save now k w) = store w ∧
        reports (interrupted_save now k w) = reports w) ∧
  registry_file (interrupted_save now 0 w) = registry_file w ∧
  registry_file (interrupted_save now 1 w) = registry_file w ∧
  registry_file (interrupted_save now 2 w) = Some Unparsable ∧
  _load_registry (registry_file (interrupted_save now 2 w)) = Ok new_registry.
Proof.
  split_and!; try reflexivity.
  - by destruct w as [[] ? ? ? ?].
  - intros k. do 4 (destruct k as [|k]; [done|]). done.
Qed.

(** C7 (as the code has it). [_load_registry] returns an empty
    registry when the document is missing, and also when it exists
    and cannot be read: the exception is caught and the load never
    raises, so the constructor succeeds on an unreadable document
    with an empty registry. *)
Theorem load_registry_never_raises :
  _load_registry None = Ok new_registry ∧
  _load_registry (Some Unparsable) = Ok new_registry ∧
  (∀ file, ∃ reg, _load_registry file = Ok reg) ∧
  (∀ st lk rp, init (Some Unparsable) st lk rp
               = Ok {| registry := new_registry;
                       registry_file := Some Unparsable;
                       store := st; locked := lk; reports := rp |}).
Proof.
  split_and!; try reflexivity.
  intros [[d|]|]; simpl; eauto.
Qed.

(** C6 (as the code has it). [export_lineage] raises
    [ValueError("Model ... not found")] for a name without a line.
    For a name with a line it changes nothing but the report at the
    output path, which holds the name, the generation time, the
    production pointer, the number of records and one entry per
    record, in the order of the line, none left out; an entry holds
    the record's version, creation time, author, description, status,
    production flag, training data hash, training samples and
    metrics (and no other field). *)
Theorem export_lineage_report now name path w :
  (models (registry w) !! name = None →
   export_lineage now name path w
   = (Raise (ValueError ("Model " +:+ name +:+ " not found")), w)) ∧
  (∀ line, models (registry w) !! name = Some line →
     ∃ report,
       export_lineage now name path w
       = (Ok tt, set_reports (<[path := report]> (reports w)) w) ∧
       lin_model_name report = name ∧
       lin_generated_at report = now ∧
       lin_current_production report = current_production (registry w) !! name ∧
       lin_total_versions report = Z.of_nat (length line) ∧
       length (lin_version_history report) = length line ∧
       ∀ i v, line !! i = Some v →
         ∃ e, lin_version_history report !! i = Some e ∧
              le_version e = version v ∧
              le_created_at e = created_at v ∧
              le_created_by e = created_by v ∧
              le_description e = description v ∧
              le_status e = status v ∧
              le_is_production e = is_production v ∧
              le_training_data_hash e = training_data_hash v ∧
              le_training_samples e = training_samples v ∧
              le_metrics e = metrics v).
Proof.
  split.
  - intros Hl. unfold export_lineage, bind, gets. by rewrite Hl.
  - intros line Hl. unfold export_lineage, bind, gets. rewrite Hl.
    eexists. split; [reflexivity|]. simpl. split_and!; try done.
    + by rewrite length_fmap.
    + intros i v Hi. exists (lineage_entry v).
      rewrite list_lookup_fmap, Hi. done.
Qed.

Lemma py_slice_whole {A} (n : Z) (l : list A) :
  n = 0 ∨ Z.of_nat (length l) ≤ n → py_slice_from (- n) l = l.
Proof.
  intros Hn. unfold py_slice_from.
  destruct (Z.ltb_spec (- n) 0).
  - replace (Z.to_nat _) with 0%nat by lia. done.
  - replace (Z.to_nat _) with 0%nat by lia. done.
Qed.

Lemma filter_nil_all {A} (P : A → Prop) `{∀ x, Decision (P x)} (l : list A) :
  (∀ x, x ∈ l → ¬ P x) → filter P l = [].
Proof.
  induction l as [|x l IH]; intros Hall; [done|].
  rewrite filter_cons, decide_False by (apply Hall; left).
  apply IH. intros y Hy. apply Hall. by right.
Qed.

(** C8 (as the code has it). [cleanup_old_versions] on a name that is
    not in the registry returns 0, raises nothing and changes nothing;
    on a name with a line of which no record is to be removed it
    returns 0 and leaves lines and version directories as they are.
    No record is to be removed when [keep_last_n] is 0 or at least the
    length of the line. *)
Theorem cleanup_returns_zero now name keep_last_n keep_production w :
  (models (registry w) !! name = None →
   cleanup_old_versions now name keep_last_n keep_production w = (Ok 0, w)) ∧
  (∀ line, models (registry w) !! name = Some line →
     removal_candidates line (current_production (registry w) !! name)
       keep_last_n keep_production = [] →
     let r := cleanup_old_versions now name keep_last_n keep_production w in
     r.1 = Ok 0 ∧
     models (registry r.2) = models (registry w) ∧
     store r.2 = store w) ∧
  (∀ line production,
     keep_last_n = 0 ∨ Z.of_nat (length line) ≤ keep_last_n →
     removal_candidates line production keep_last_n keep_production = []).
Proof.
  split_and!.
  - intros Hl. unfold cleanup_old_versions, bind, gets. by rewrite Hl.
  - intros line Hl Hnone. unfold cleanup_old_versions, bind, gets.
    rewrite Hl, Hnone. done.
  - intros line production Hn. unfold removal_candidates.
    rewrite py_slice_whole by done.
    rewrite (filter_nil_all (λ v, v ∉ line)) by (intros v Hv Hnot; done).
    by destruct production as [pv|]; [case_match|].
Qed.

(** C9 (as the code has it). For a model with a non-empty line and no
    production pointer, [load_model] without a version falls back to
    the latest record's version: it is the load of that version, it
    raises only if the artifact cannot be read, and otherwise returns
    the artifact and the record; [get_production_models] has no entry
    for the model. *)
Theorem load_model_falls_back_to_latest w name line latest :
  models (registry w) !! name = Some line →
  last line = Some latest →
  current_production (registry w) !! name = None →
  load_model w name None = load_model w name (Some (version latest)) ∧
  (∃ v, v ∈ line ∧ version v = version latest ∧
        load_model w name None
        = match joblib_load w name (version latest) (model_file v) with
          | Ok model => Ok (model, v)
          | Raise e => Raise e
          end) ∧
  get_production_models w !! name = None.
Proof.
  intros Hl Hlast Hcp. split_and!.
  - unfold load_model. by rewrite Hl, Hcp, Hlast.
  - unfold load_model. rewrite Hl, Hcp, Hlast.
    destruct (List.find (λ r, bool_decide (version r = version latest)) line)
      as [v|] eqn:Hfind.
    + apply List.find_some in Hfind as [Hin Hv].
      apply bool_decide_eq_true in Hv. apply list_elem_of_In in Hin.
      exists v. split_and!; [done..|].
      by destruct (joblib_load w name (version latest) (model_file v)).
    + exfalso. apply last_Some_elem_of in Hlast.
      apply list_elem_of_In in Hlast.
      pose proof (List.find_none _ _ Hfind _ Hlast) as Hno. simpl in Hno.
      by rewrite bool_decide_eq_true_2 in Hno.
  - unfold get_production_models. by rewrite map_lookup_imap, Hcp.
Qed.

(** ** Retention *)

Lemma list_remove_first_filter (P : ModelVersion → Prop)
    `{∀ v, Decision (P v)} x l l' :
  list_remove_first x l = Some l' → ¬ P x → filter P l' = filter P l.
Proof.
  revert l'. induction l as [|y l IH]; intros l'; simpl; [done|].
  destruct (decide (y = x)) as [->|Hne].
  - intros [= ->] Hx. by rewrite filter_cons, decide_False.
  - destruct (list_remove_first x l) as [l0|]; simpl; [|done].
    intros [= <-] Hx. rewrite !filter_cons. by rewrite (IH l0).
Qed.

(** One turn of the cleanup loop returns; it leaves the registry as
    it was, or it has removed from the line the first record equal to
    [v] and counted it. *)
Lemma cleanup_try_spec name v removed w :
  ∃ n w',
    try_except (cleanup_body name v removed) (λ _, ret removed) w = (Ok n, w') ∧
    current_production (registry w') = current_production (registry w) ∧
    locked w' = locked w ∧
    ((n = removed ∧ registry w' = registry w) ∨
     (n = removed + 1 ∧
      ∃ line line',
        models (registry w) !! name = Some line ∧
        list_remove_first v line = Some line' ∧
        models (registry w') = <[name := line']> (models (registry w)))).
Proof.
  unfold cleanup_body, remove_record, try_except, bind, gets, rmtree, raise,
    modify, ret.
  destruct (bool_decide (is_Some (store w !! (name, version v)))).
  - destruct (decide ((name, version v) ∈ locked w)).
    + eexists _, _. split; [reflexivity|]. split_and!; [done..|by left].
    + simpl. destruct (models (registry w) !! name) as [line|] eqn:Hl.
      * destruct (list_remove_first v line) as [line'|] eqn:Hr.
        -- eexists _, _. split; [reflexivity|]. split_and!; [done..|].
           right. split; [done|]. by exists line, line'.
        -- eexists _, _. split; [reflexivity|]. split_and!; [done..|by left].
      * eexists _, _. split; [reflexivity|]. split_and!; [done..|by left].
  - simpl. destruct (models (registry w) !! name) as [line|] eqn:Hl.
    + destruct (list_remove_first v line) as [line'|] eqn:Hr.
      * eexists _, _. split; [reflexivity|]. split_and!; [done..|].
        right. split; [done|]. by exists line, line'.
      * eexists _, _. split; [reflexivity|]. split_and!; [done..|by left].
    + eexists _, _. split; [reflexivity|]. split_and!; [done..|by left].
Qed.

Lemma cleanup_loop_keeps name pv to_remove removed w :
  (∀ v, v ∈ to_remove → version v ≠ pv) →
  ∃ n w',
    cleanup_loop name to_remove removed w = (Ok n, w') ∧
    current_production (registry w') = current_production (registry w) ∧
    filter (λ v, version v = pv) (line_of (registry w') name)
    = filter (λ v, version v = pv) (line_of (registry w) name).
Proof.
  revert removed w.
  induction to_remove as [|v rest IH]; intros removed w Hall; simpl.
  - by eexists _, _.
  - destruct (cleanup_try_spec name v removed w)
      as (n1 & w1 & Hrun & Hcp & _ & Hcase).
    destruct (IH n1 w1) as (n & w' & Hloop & Hcp' & Hfilter).
    { intros v' Hv'. apply Hall. by right. }
    exists n, w'. unfold bind. rewrite Hrun. split; [done|].
    split; [congruence|]. rewrite Hfilter.
    destruct Hcase as [[_ ->]|(_ & line & line' & Hl & Hr & Hm)]; [done|].
    unfold line_of. rewrite Hm, lookup_insert_eq, Hl. simpl.
    eapply list_remove_first_filter; [done|]. apply Hall. by left.
Qed.

Lemma removal_candidates_not_production line pv keep_last_n v :
  pv ≠ "" →
  v ∈ removal_candidates line (Some pv) keep_last_n true → version v ≠ pv.
Proof.
  intros Hpv. unfold removal_candidates. simpl.
  rewrite bool_decide_eq_true_2 by done.
  by intros [? _]%list_elem_of_filter.
Qed.

(** Cleanup leaves in the line every record that carries the version
    [pv], provided no record it sets out to remove does. *)
Lemma cleanup_keeps_version now name keep_last_n keep_production pv w :
  (∀ line v, models (registry w) !! name = Some line →
     v ∈ removal_candidates line (current_production (registry w) !! name)
           keep_last_n keep_production →
     version v ≠ pv) →
  filter (λ v, version v = pv)
    (line_of (registry (cleanup_old_versions now name keep_last_n
                          keep_production w).2) name)
  = filter (λ v, version v = pv) (line_of (registry w) name).
Proof.
  intros Hall. unfold cleanup_old_versions, bind, gets.
  destruct (models (registry w) !! name) as [line|] eqn:Hl; [|done].
  destruct (cleanup_loop_keeps name pv
              (removal_candidates line (current_production (registry w) !! name)
                 keep_last_n keep_production) 0 w)
    as (n & w' & -> & _ & Hfilter); [intros v Hv; by apply (Hall line)|].
  done.
Qed.

(** A registration on a line whose latest version parses. *)
Lemma register_model_next now_created now_saved a w latest t :
  last (line_of (registry w) (a_model_name a)) = Some latest →
  parse_version (version latest) = Some t →
  ∃ v w',
    register_model now_created now_saved a w = (Ok v, w') ∧
    version v = format_version (bump_triple (a_bump a) t) ∧
    is_production v = false ∧
    models (registry w') =
      <[a_model_name a := line_of (registry w) (a_model_name a) ++ [v]]>
        (models (registry w)) ∧
    current_production (registry w') = current_production (registry w) ∧
    locked w' = locked w.
Proof.
  intros Hlast Hparse.
  apply register_model_ok. by eapply next_version_bump.
Qed.

(** A registration on a model without records. *)
Lemma register_model_first now_created now_saved a w :
  line_of (registry w) (a_model_name a) = [] →
  ∃ v w',
    register_model now_created now_saved a w = (Ok v, w') ∧
    version v = "1.0.0" ∧
    is_production v = false ∧
    models (registry w') = <[a_model_name a := [v]]> (models (registry w)) ∧
    current_production (registry w') = current_production (registry w) ∧
    locked w' = locked w.
Proof.
  intros Hnil.
  destruct (register_model_ok now_created now_saved a w "1.0.0")
    as (v & w' & ? & ? & ? & Hm & ? & ?); [by apply next_version_first|].
  rewrite Hnil in Hm. by exists v, w'.
Qed.

Lemma retention_scenario c1 s1 c2 s2 c3 s3 np nc (a1 a2 a3 : RegisterArgs)
    name file st lk rp :
  a_model_name a1 = name → a_model_name a2 = name → a_model_name a3 = name →
  a_bump a2 = "patch" → a_bump a3 = "patch" →
  (name, "1.0.0") ∉ lk →
  let w := run_calls [CallRegister c1 s1 a1; CallRegister c2 s2 a2;
                      CallRegister c3 s3 a3; CallPromote np name "1.0.1"]
             {| registry := new_registry; registry_file := file;
                store := st; locked := lk; reports := rp |} in
  version <$> line_of (registry w) name = ["1.0.0"; "1.0.1"; "1.0.2"] ∧
  current_production (registry w) !! name = Some "1.0.1" ∧
  let r := cleanup_old_versions nc name 1 true w in
  r.1 = Ok 1 ∧
  version <$> line_of (registry r.2) name = ["1.0.1"; "1.0.2"] ∧
  store r.2 !! (name, "1.0.0") = None.
Proof.
  intros Hn1 Hn2 Hn3 Hb2 Hb3 Hlk.
  set (w0 := {| registry := new_registry; registry_file := file;
                store := st; locked := lk; reports := rp |}).
  destruct (register_model_first c1 s1 a1 w0)
    as (v1 & w1 & Hr1 & Hv1 & Hf1 & Hm1 & Hcp1 & Hlk1).
  { unfold line_of. simpl. by rewrite lookup_empty. }
  rewrite Hn1 in Hm1. simpl in Hm1, Hcp1, Hlk1.
  destruct (register_model_next c2 s2 a2 w1 v1 (1, 0, 0))
    as (v2 & w2 & Hr2 & Hv2 & Hf2 & Hm2 & Hcp2 & Hlk2).
  { unfold line_of. by rewrite Hn2, Hm1, lookup_insert_eq. }
  { by rewrite Hv1. }
  rewrite Hb2 in Hv2. unfold line_of in Hm2.
  rewrite Hn2, Hm1, lookup_insert_eq, insert_insert_eq in Hm2.
  simpl in Hm2, Hv2.
  destruct (register_model_next c3 s3 a3 w2 v2 (1, 0, 1))
    as (v3 & w3 & Hr3 & Hv3 & Hf3 & Hm3 & Hcp3 & Hlk3).
  { unfold line_of. by rewrite Hn3, Hm2, lookup_insert_eq. }
  { by rewrite Hv2. }
  rewrite Hb3 in Hv3. unfold line_of in Hm3.
  rewrite Hn3, Hm2, lookup_insert_eq, insert_insert_eq in Hm3.
  simpl in Hm3, Hv3.
  assert (version v2 = "1.0.1") as Hv2' by (by rewrite Hv2).
  assert (version v3 = "1.0.2") as Hv3' by (by rewrite Hv3).
  clear Hv2 Hv3.
  assert (locked w3 = lk) as Hlk' by congruence.
  assert (current_production (registry w3) = ∅) as Hcp' by congruence.
  unfold run_calls. cbn [foldl run_call].
  rewrite Hr1. cbn [snd]. rewrite Hr2. cbn [snd]. rewrite Hr3. cbn [snd].
  rewrite (promote_found np name "1.0.1" w3 [v1; v2; v3]); cycle 1.
  { by rewrite Hm3, lookup_insert_eq. }
  { simpl. rewrite Hv1, Hv2', Hv3'. right; left. }
  cbn [snd].
  assert (promoted_line "1.0.1" [v1; v2; v3]
          = [with_is_production false v1; with_is_production true v2;
             with_is_production false v3]) as ->.
  { unfold promoted_line. simpl. by rewrite Hv1, Hv2', Hv3'. }
  match goal with
  | |- context [run_steps ?steps ?w'] => set (w := run_steps steps w')
  end.
  assert (registry w
          = {| models := <[name := [with_is_production false v1;
                                    with_is_production true v2;
                                    with_is_production false v3]]>
                           (models (registry w3));
               current_production := <[name := "1.0.1"]> ∅;
               last_updated := np |}) as Hreg.
  { subst w. simpl. by rewrite Hcp'. }
  set (p1 := with_is_production false v1) in *.
  set (p2 := with_is_production true v2) in *.
  set (p3 := with_is_production false v3) in *.
  assert (version p1 = "1.0.0") as Hp1 by done.
  assert (version p2 = "1.0.1") as Hp2 by done.
  assert (version p3 = "1.0.2") as Hp3 by done.
  clearbody p1 p2 p3.
  assert (removal_candidates [p1; p2; p3] (Some "1.0.1") 1 true = [p1]) as Hrm.
  { unfold removal_candidates, py_slice_from. simpl.
    rewrite !filter_cons, !filter_nil.
    rewrite (decide_True (P := p1 ∉ [p3]))
      by (rewrite list_elem_of_singleton; congruence).
    rewrite (decide_True (P := p2 ∉ [p3]))
      by (rewrite list_elem_of_singleton; congruence).
    rewrite (decide_False (P := p3 ∉ [p3])) by (intros Hn; apply Hn; left).
    rewrite !filter_cons, !filter_nil.
    rewrite (decide_True (P := version p1 ≠ "1.0.1")) by congruence.
    by rewrite (decide_False (P := version p2 ≠ "1.0.1")) by congruence. }
  assert (∃ w', cleanup_old_versions nc name 1 true w = (Ok 1, w') ∧
                models (registry w') !! name = Some [p2; p3] ∧
                store w' !! (name, "1.0.0") = None)
    as (w' & Hclean & Hm' & Hst').
  { unfold cleanup_old_versions, bind, gets.
    rewrite Hreg. cbn [models]. rewrite lookup_insert_eq. cbv beta.
    rewrite Hreg. cbn [current_production]. rewrite lookup_insert_eq, Hrm.
    cbn [cleanup_loop]. unfold try_except, cleanup_body, remove_record, bind, gets, rmtree.
    rewrite Hp1.
    assert (locked w = lk) as Hlkw by (by subst w).
    destruct (bool_decide (is_Some (store w !! (name, "1.0.0")))) eqn:Hex.
    - rewrite decide_False by (by rewrite Hlkw).
      cbn [registry set_store]. rewrite Hreg. cbn [models].
      rewrite lookup_insert_eq. cbn [list_remove_first].
      rewrite decide_True by done.
      eexists. split; [reflexivity|]. simpl.
      by rewrite lookup_insert_eq, lookup_delete_eq.
    - apply bool_decide_eq_false in Hex. apply eq_None_not_Some in Hex.
      unfold ret at 1. rewrite Hreg. cbn [models].
      rewrite lookup_insert_eq. cbn [list_remove_first].
      rewrite decide_True by done.
      eexists. split; [reflexivity|]. simpl.
      by rewrite lookup_insert_eq. }
  rewrite Hclean. cbn [fst snd].
  split_and!.
  - rewrite Hreg. unfold line_of. simpl. rewrite lookup_insert_eq. simpl.
    by rewrite Hp1, Hp2, Hp3.
  - rewrite Hreg. simpl. by rewrite lookup_insert_eq.
  - done.
  - unfold line_of. rewrite Hm'. simpl. by rewrite Hp2, Hp3.
  - done.
Qed.

Lemma strictly_increasing_version_nonempty line ver :
  strictly_increasing line → ver ∈ version <$> line → ver ≠ "".
Proof.
  intros (ts & Hp & _) (v & -> & Hin)%list_elem_of_fmap Hempty.
  apply list_elem_of_lookup_1 in Hin as [i Hi].
  destruct (Forall2_lookup_l _ _ _ _ _ Hp Hi) as (t & _ & Ht).
  rewrite Hempty in Ht. discriminate Ht.
Qed.

Lemma run_call_pointers_nonempty c w :
  registry_consistent (registry w) →
  pointers_nonempty (registry w) →
  pointers_nonempty (registry (run_call c w)).
Proof.
  intros Hc Hne. destruct c as [now_created now_saved a|now name ver]; simpl.
  - destruct (register_model_consistent now_created now_saved a w Hc)
      as (v & w' & -> & _ & _ & Hcp & _ & _). simpl.
    intros name pv. rewrite Hcp. apply Hne.
  - destruct (models (registry w) !! name) as [line|] eqn:Hl.
    + destruct (decide (ver ∈ version <$> line)) as [Hin|Hnot].
      * rewrite (promote_found _ _ _ _ _ Hl Hin). simpl.
        intros name' pv. simpl.
        destruct (decide (name = name')) as [<-|Hname].
        -- rewrite lookup_insert_eq. intros [= <-].
           eapply strictly_increasing_version_nonempty; [|done].
           by destruct (Hc _ _ Hl).
        -- rewrite lookup_insert_ne by done. apply Hne.
      * rewrite (promote_missing _ _ _ _ _ Hl Hnot). simpl. apply Hne.
    + by rewrite promote_absent.
Qed.

Lemma run_calls_pointers_nonempty cs w :
  registry_consistent (registry w) →
  pointers_nonempty (registry w) →
  pointers_nonempty (registry (run_calls cs w)).
Proof.
  revert w. induction cs as [|c cs IH]; intros w Hc Hne; simpl; [done|].
  apply IH; [by apply run_call_consistent|by apply run_call_pointers_nonempty].
Qed.

(** C5. With [keep_production] set and a production pointer for the
    model, [cleanup_old_versions] leaves in the line every record that
    carries the production version, whatever [keep_last_n] is and
    whatever the state of the artifact store: in every state whose
    pointer is a non-empty string, and so in every state reached from a
    new registry by registrations and promotions.  In particular, after
    three registrations of one model on a new registry (versions 1.0.0,
    1.0.1, 1.0.2) and the promotion of 1.0.1, a cleanup with
    [keep_last_n = 1] returns 1, leaves exactly the records 1.0.1 and
    1.0.2 in the line, and removes the version directory of 1.0.0. *)
Theorem cleanup_keeps_production :
  (∀ now name keep_last_n w pv,
     current_production (registry w) !! name = Some pv →
     pv ≠ "" →
     filter (λ v, version v = pv)
       (line_of (registry (cleanup_old_versions now name keep_last_n
                             true w).2) name)
     = filter (λ v, version v = pv) (line_of (registry w) name)) ∧
  (∀ cs file st lk rp now name keep_last_n pv,
     let w := run_calls cs {| registry := new_registry; registry_file := file;
                              store := st; locked := lk; reports := rp |} in
     current_production (registry w) !! name = Some pv →
     filter (λ v, version v = pv)
       (line_of (registry (cleanup_old_versions now name keep_last_n
                             true w).2) name)
     = filter (λ v, version v = pv) (line_of (registry w) name)) ∧
  (∀ c1 s1 c2 s2 c3 s3 np nc (a1 a2 a3 : RegisterArgs) name file st lk rp,
     a_model_name a1 = name → a_model_name a2 = name →
     a_model_name a3 = name →
     a_bump a2 = "patch" → a_bump a3 = "patch" →
     (name, "1.0.0") ∉ lk →
     let w := run_calls [CallRegister c1 s1 a1; CallRegister c2 s2 a2;
                         CallRegister c3 s3 a3; CallPromote np name "1.0.1"]
                {| registry := new_registry; registry_file := file;
                   store := st; locked := lk; reports := rp |} in
     version <$> line_of (registry w) name = ["1.0.0"; "1.0.1"; "1.0.2"] ∧
     current_production (registry w) !! name = Some "1.0.1" ∧
     let r := cleanup_old_versions nc name 1 true w in
     r.1 = Ok 1 ∧
     version <$> line_of (registry r.2) name = ["1.0.1"; "1.0.2"] ∧
     store r.2 !! (name, "1.0.0") = None).
Proof.
  assert (∀ now name keep_last_n w pv,
            current_production (registry w) !! name = Some pv →
            pv ≠ "" →
            filter (λ v, version v = pv)
              (line_of (registry (cleanup_old_versions now name keep_last_n
                                    true w).2) name)
            = filter (λ v, version v = pv) (line_of (registry w) name))
    as Hkeep.
  { intros now name keep_last_n w pv Hcp Hpv.
    apply cleanup_keeps_version. intros line v _. rewrite Hcp.
    by apply removal_candidates_not_production. }
  split_and!.
  - exact Hkeep.
  - intros cs file st lk rp now name keep_last_n pv w Hcp.
    apply Hkeep; [done|].
    eapply (run_calls_pointers_nonempty cs); [| |exact Hcp].
    + simpl. apply new_registry_consistent.
    + intros name' pv'. simpl. by rewrite lookup_empty.
  - apply retention_scenario.
Qed.

(** * Further properties of the code *)

(** ** Promotion *)

Lemma promoted_line_lookup ver line i v :
  line !! i = Some v →
  promoted_line ver line !! i
  = Some (with_is_production (bool_decide (version v = ver)) v).
Proof. intros Hi. unfold promoted_line. by rewrite list_lookup_fmap, Hi. Qed.

Lemma promoted_line_idemp ver line :
  promoted_line ver (promoted_line ver line) = promoted_line ver line.
Proof.
  unfold promoted_line. rewrite <- list_fmap_compose.
  apply list_fmap_ext. intros i v _. done.
Qed.

(** X1. Promoting a version that exists in the line returns; the
    pointer of the model is the promoted version; the line keeps its
    records in place, each changed in its production flag only, which
    is set exactly on the records carrying the version; the lines and
    pointers of other models are untouched; and the document on disk is
    the one of the registry. *)
Theorem promote_existing_version now name ver w line :
  models (registry w) !! name = Some line →
  ver ∈ version <$> line →
  let r := promote_to_production now name ver w in
  r.1 = Ok tt ∧
  current_production (registry r.2) !! name = Some ver ∧
  (∃ line', models (registry r.2) !! name = Some line' ∧
            length line' = length line ∧
            (∀ i v, line !! i = Some v →
               line' !! i
               = Some (with_is_production (bool_decide (version v = ver)) v)) ∧
            (∀ v, v ∈ line' → is_production v = true ↔ version v = ver)) ∧
  (∀ other, other ≠ name →
     models (registry r.2) !! other = models (registry w) !! other ∧
     current_production (registry r.2) !! other
     = current_production (registry w) !! other) ∧
  registry_file r.2 = Some (Document (to_dict (registry r.2))).
Proof.
  intros Hl Hin r. subst r. rewrite (promote_found _ _ _ _ _ Hl Hin).
  simpl. split_and!.
  - done.
  - apply lookup_insert_eq.
  - exists (promoted_line ver line). split_and!.
    + apply lookup_insert_eq.
    + unfold promoted_line. by rewrite length_fmap.
    + intros i v. apply promoted_line_lookup.
    + intros v (v0 & -> & _)%list_elem_of_fmap. simpl.
      apply bool_decide_eq_true.
  - intros other Hne. by rewrite !lookup_insert_ne.
  - done.
Qed.

(** X2. Promoting the same existing version a second time returns and
    changes nothing but the timestamp of the save: lines and pointers
    are those left by the first promotion. *)
Theorem promote_twice now1 now2 name ver w line :
  models (registry w) !! name = Some line →
  ver ∈ version <$> line →
  let w1 := (promote_to_production now1 name ver w).2 in
  let r := promote_to_production now2 name ver w1 in
  r.1 = Ok tt ∧
  registry r.2 = set_last_updated now2 (registry w1) ∧
  registry_file r.2 = Some (Document (to_dict (registry r.2))) ∧
  store r.2 = store w1.
Proof.
  intros Hl Hin w1 r. subst r w1. rewrite (promote_found _ _ _ _ _ Hl Hin).
  cbn [snd].
  erewrite promote_found; cycle 1.
  { simpl. apply lookup_insert_eq. }
  { by rewrite promoted_line_versions. }
  simpl. rewrite promoted_line_idemp, !insert_insert_eq. done.
Qed.

(** X3. A promotion that fails for an unknown version has nevertheless
    rewritten the line in memory: its records are in place with every
    production flag cleared, so a line that had a production record no
    longer shows one, while the pointer and the document on disk still
    name it. *)
Theorem promote_unknown_version_clears_flags now name ver w line :
  models (registry w) !! name = Some line →
  ver ∉ version <$> line →
  let w' := (promote_to_production now name ver w).2 in
  (∀ i v, line !! i = Some v →
     line_of (registry w') name !! i = Some (with_is_production false v)) ∧
  length (line_of (registry w') name) = length line ∧
  (∀ v, v ∈ line_of (registry w') name → is_production v = false) ∧
  ((∃ v, v ∈ line ∧ is_production v = true) →
   models (registry w') ≠ models (registry w)) ∧
  (∀ other, other ≠ name →
     models (registry w') !! other = models (registry w) !! other).
Proof.
  intros Hl Hnot w'. subst w'. rewrite (promote_missing _ _ _ _ _ Hl Hnot).
  cbn [snd]. unfold line_of. simpl. rewrite lookup_insert_eq. simpl.
  assert (∀ v, v ∈ line → bool_decide (version v = ver) = false) as Hflag.
  { intros v Hv. apply bool_decide_eq_false. intros <-. apply Hnot.
    by apply list_elem_of_fmap_2. }
  split_and!.
  - intros i v Hi. rewrite (promoted_line_lookup _ _ _ _ Hi).
    rewrite Hflag; [done|]. by eapply list_elem_of_lookup_2.
  - unfold promoted_line. by rewrite length_fmap.
  - intros v (v0 & -> & Hv0)%list_elem_of_fmap. simpl. by apply Hflag.
  - intros (v & Hv & Hprod) Heq.
    apply (f_equal (λ m, m !! name)) in Heq.
    rewrite lookup_insert_eq, Hl in Heq. injection Heq as Heq.
    rewrite <- Heq in Hv.
    apply list_elem_of_fmap in Hv as (v0 & -> & Hv0). simpl in Hprod.
    by rewrite Hflag in Hprod.
  - intros other Hne. by rewrite lookup_insert_ne.
Qed.

(** ** Registration *)

(** Everything a registration that gets its version does. *)
Lemma register_model_effect now_created now_saved a w vs :
  _get_next_version (registry w) (a_model_name a) (a_bump a) = Ok vs →
  ∃ v w',
    register_model now_created now_saved a w = (Ok v, w') ∧
    (version v = vs ∧ model_name v = a_model_name a ∧ status v = "active" ∧
     is_production v = false ∧ model_file v = "model.joblib" ∧
     created_at v = now_created ∧ metrics v = a_metrics a) ∧
    models (registry w') =
      <[a_model_name a := line_of (registry w) (a_model_name a) ++ [v]]>
        (models (registry w)) ∧
    current_production (registry w') = current_production (registry w) ∧
    last_updated (registry w') = now_saved ∧
    registry_file w' = Some (Document (to_dict (registry w'))) ∧
    store w' !! (a_model_name a, vs)
    = Some (<["metadata.json" := MetadataJson v]>
              (<["model.joblib" := Joblib (a_model a)]>
                 (default ∅ (store w !! (a_model_name a, vs))))) ∧
    (∀ dir, dir ≠ (a_model_name a, vs) → store w' !! dir = store w !! dir) ∧
    locked w' = locked w ∧ reports w' = reports w.
Proof.
  intros Hv. unfold register_model, bind, lift. rewrite Hv.
  unfold mkdir, write_file, modify.
  destruct (store w !! (a_model_name a, vs)) as [dir|] eqn:Hdir;
    (eexists _, _; split; [reflexivity|]); simpl.
  - rewrite Hdir. simpl. rewrite !lookup_insert_eq. simpl.
    split_and!; try done.
    intros dir' Hne. by rewrite !lookup_insert_ne.
  - rewrite !lookup_insert_eq. simpl. rewrite ?lookup_insert_eq. simpl.
    split_and!; try done.
    intros dir' Hne. by rewrite !lookup_insert_ne.
Qed.

Lemma find_version_snoc line v :
  version v ∉ version <$> line →
  List.find (λ r, bool_decide (version r = version v)) (line ++ [v]) = Some v.
Proof.
  induction line as [|x line IH]; simpl; intros Hnot.
  - by rewrite bool_decide_eq_true_2.
  - rewrite bool_decide_eq_false_2.
    + apply IH. intros Hin. apply Hnot. by right.
    + intros Heq. apply Hnot. rewrite <- Heq. left.
Qed.

Lemma strictly_increasing_snoc_fresh line v :
  strictly_increasing (line ++ [v]) → version v ∉ version <$> line.
Proof.
  intros Hinc%strictly_increasing_NoDup.
  rewrite fmap_app in Hinc. apply NoDup_app in Hinc as (_ & Hdisj & _).
  intros Hin. apply (Hdisj _ Hin). simpl. left.
Qed.

(** X4. In a registry reached from a new one by registrations and
    promotions, a registration returns and the model it stored is what
    [load_model] returns for the name and the new version, together
    with the new record; it is also what loading without a version
    returns when the model has no production pointer. *)
Theorem register_then_load (cs : list Call) file st lk rp
    now_created now_saved a :
  let w := run_calls cs {| registry := new_registry; registry_file := file;
                           store := st; locked := lk; reports := rp |} in
  let r := register_model now_created now_saved a w in
  ∃ v, r.1 = Ok v ∧
       load_model r.2 (a_model_name a) (Some (version v)) = Ok (a_model a, v) ∧
       (current_production (registry w) !! a_model_name a = None →
        load_model r.2 (a_model_name a) None = Ok (a_model a, v)).
Proof.
  intros w r.
  assert (registry_consistent (registry w)) as Hc.
  { apply run_calls_consistent. simpl. apply new_registry_consistent. }
  destruct (next_version_increasing _ (a_model_name a) (a_bump a)
              (line_of_consistent _ _ Hc)) as (vs & t' & Hvs & Hparse & Hlt).
  destruct (register_model_effect now_created now_saved a w vs Hvs)
    as (v & w' & Hrun & (Hv & _ & _ & _ & Hfile & _) & Hm & Hcp & _ & _
        & Hstore & _).
  assert (version v ∉ version <$> line_of (registry w) (a_model_name a))
    as Hfresh.
  { apply strictly_increasing_snoc_fresh.
    eapply strictly_increasing_snoc; [by apply line_of_consistent| |done].
    by rewrite Hv. }
  assert (load_model w' (a_model_name a) (Some (version v)) = Ok (a_model a, v))
    as Hload.
  { unfold load_model. rewrite Hm, lookup_insert_eq.
    rewrite (find_version_snoc _ _ Hfresh).
    unfold joblib_load. rewrite Hv, Hstore. simpl. rewrite Hfile.
    rewrite lookup_insert_ne by done. by rewrite lookup_insert_eq. }
  exists v. subst r. rewrite Hrun. cbn [fst snd]. split_and!; [done..|].
  intros Hnone. rewrite <- Hload. unfold load_model.
  rewrite Hm, lookup_insert_eq, Hcp, Hnone. by rewrite last_snoc.
Qed.


Lemma parse_version_pieces s :
  length (split_on "." s) ≠ 3%nat → parse_version s = None.
Proof.
  unfold parse_version. intros Hlen.
  destruct (split_on "." s) as [|p1 [|p2 [|p3 [|p4 rest]]]]; simpl in *;
    try done; repeat case_match; done.
Qed.

(** X6. When the latest version of the line does not split at its dots
    into exactly three pieces, [_get_next_version] raises the
    [ValueError] of the unpacking (or of [int]), whatever the bump, and
    a registration for that model raises it and changes nothing: no
    directory is made and no record is added. *)
Theorem register_malformed_latest now_created now_saved a w latest :
  last (line_of (registry w) (a_model_name a)) = Some latest →
  length (split_on "." (version latest)) ≠ 3%nat →
  (∀ bump, _get_next_version (registry w) (a_model_name a) bump
           = Raise BuiltinValueError) ∧
  register_model now_created now_saved a w = (Raise BuiltinValueError, w).
Proof.
  intros Hlast Hlen.
  assert (∀ bump, _get_next_version (registry w) (a_model_name a) bump
                  = Raise BuiltinValueError) as Hnext.
  { intros bump. unfold _get_next_version. unfold line_of in Hlast.
    destruct (models (registry w) !! a_model_name a) as [line|];
      simpl in Hlast; [|done].
    by rewrite Hlast, parse_version_pieces. }
  split; [done|]. by apply register_model_raise.
Qed.

(** ** Retention *)

Lemma list_remove_first_None x l : list_remove_first x l = None ↔ x ∉ l.
Proof.
  induction l as [|y l IH]; simpl.
  - split; [intros _; apply not_elem_of_nil|done].
  - destruct (decide (y = x)) as [->|Hne].
    + split; [done|]. intros Hnot. exfalso. apply Hnot. left.
    + rewrite not_elem_of_cons, <- IH.
      destruct (list_remove_first x l); simpl.
      * split; [done|by intros [_ ?]].
      * split; [|done]. intros _. split; [congruence|done].
Qed.

Lemma list_remove_first_Some x l l' :
  list_remove_first x l = Some l' →
  x ∈ l ∧ sublist l' l ∧ length l = S (length l') ∧
  (∀ y, y ∈ l → y ≠ x → y ∈ l') ∧
  (∀ l1 l2, l = l1 ++ l2 → x ∉ l2 → ∃ l1', l' = l1' ++ l2).
Proof.
  revert l'. induction l as [|y l IH]; intros l'; simpl; [done|].
  destruct (decide (y = x)) as [->|Hne].
  - intros [= ->]. split_and!.
    + left.
    + by apply sublist_cons.
    + done.
    + intros y [?|?]%elem_of_cons ?; [congruence|done].
    + intros l1 l2 Heq Hnot. destruct l1 as [|z l1]; simpl in Heq.
      * subst l2. exfalso. apply Hnot. left.
      * injection Heq as -> ->. by exists l1.
  - destruct (list_remove_first x l) as [l0|] eqn:Hr; simpl; [|done].
    intros [= <-]. destruct (IH l0 eq_refl) as (Hin & Hsub & Hlen & Hmem & Hsuf).
    split_and!.
    + by right.
    + by apply sublist_skip.
    + simpl. by rewrite Hlen.
    + intros z [->|?]%elem_of_cons ?; [left|right; by apply Hmem].
    + intros l1 l2 Heq Hnot. destruct l1 as [|z l1]; simpl in Heq.
      * subst l2. exists []. simpl. f_equal.
        apply not_elem_of_cons in Hnot as [_ Hnot].
        apply list_remove_first_None in Hnot. congruence.
      * injection Heq as -> ->. destruct (Hsuf l1 l2 eq_refl Hnot) as [l1' ->].
        by exists (z :: l1').
Qed.

(** One turn of the cleanup loop on a model that has a line. *)
Lemma cleanup_try_step name v removed w line :
  models (registry w) !! name = Some line →
  ∃ n w' line',
    try_except (cleanup_body name v removed) (λ _, ret removed) w = (Ok n, w') ∧
    models (registry w') = <[name := line']> (models (registry w)) ∧
    current_production (registry w') = current_production (registry w) ∧
    last_updated (registry w') = last_updated (registry w) ∧
    locked w' = locked w ∧ registry_file w' = registry_file w ∧
    reports w' = reports w ∧
    (∀ d, store w' !! d = None ∨ store w' !! d = store w !! d) ∧
    (∀ d, d ∈ locked w → store w' !! d = store w !! d) ∧
    ((line' = line ∧ n = removed ∧
      (v ∈ line → (name, version v) ∈ locked w ∧
                  is_Some (store w !! (name, version v)))) ∨
     (list_remove_first v line = Some line' ∧ n = removed + 1 ∧
      store w' !! (name, version v) = None ∧
      ¬ ((name, version v) ∈ locked w ∧
         is_Some (store w !! (name, version v))))).
Proof.
  intros Hl.
  unfold cleanup_body, remove_record, try_except, bind, gets, rmtree, raise,
    modify, ret.
  destruct (bool_decide (is_Some (store w !! (name, version v)))) eqn:Hex.
  - apply bool_decide_eq_true in Hex.
    destruct (decide ((name, version v) ∈ locked w)) as [Hlk|Hlk].
    + exists removed, w, line. split_and!; try done.
      * by rewrite insert_id.
      * by right.
      * left. done.
    + simpl. rewrite Hl.
      assert (∀ d, delete (name, version v) (store w) !! d = None
                   ∨ delete (name, version v) (store w) !! d = store w !! d)
        as Hshrink.
      { intros d. destruct (decide (d = (name, version v))) as [->|Hd].
        - left. apply lookup_delete_eq.
        - right. by apply lookup_delete_ne. }
      assert (∀ d, d ∈ locked w →
                   delete (name, version v) (store w) !! d = store w !! d)
        as Hkeep.
      { intros d Hd. apply lookup_delete_ne. congruence. }
      destruct (list_remove_first v line) as [line'|] eqn:Hr.
      * eexists _, _, line'. split; [reflexivity|]. simpl.
        split_and!; try done. right. split_and!; try done.
        -- apply lookup_delete_eq.
        -- by intros [? _].
      * eexists _, _, line. split; [reflexivity|]. simpl.
        split_and!; try done.
        -- by rewrite insert_id.
        -- left. split_and!; try done. intros Hin.
           by apply list_remove_first_None in Hr.
  - apply bool_decide_eq_false in Hex. simpl. rewrite Hl.
    destruct (list_remove_first v line) as [line'|] eqn:Hr.
    + eexists _, _, line'. split; [reflexivity|]. simpl.
      split_and!; try done.
      * by right.
      * right. split_and!; try done.
        -- by apply eq_None_not_Some.
        -- by intros [_ ?].
    + eexists _, _, line. split; [reflexivity|]. simpl.
      split_and!; try done.
      * by rewrite insert_id.
      * by right.
      * left. split_and!; try done. intros Hin.
        by apply list_remove_first_None in Hr.
Qed.

(** The whole cleanup loop on a model that has a line. *)
Lemma cleanup_loop_spec name to_remove removed w line :
  models (registry w) !! name = Some line →
  ∃ n w' line',
    cleanup_loop name to_remove removed w = (Ok n, w') ∧
    models (registry w') = <[name := line']> (models (registry w)) ∧
    current_production (registry w') = current_production (registry w) ∧
    last_updated (registry w') = last_updated (registry w) ∧
    locked w' = locked w ∧ registry_file w' = registry_file w ∧
    reports w' = reports w ∧
    sublist line' line ∧
    n = removed + Z.of_nat (length line - length line') ∧
    (∀ l1 l2, line = l1 ++ l2 → (∀ v, v ∈ to_remove → v ∉ l2) →
              ∃ l1', line' = l1' ++ l2) ∧
    (∀ d, store w' !! d = None ∨ store w' !! d = store w !! d) ∧
    (∀ d, d ∈ locked w → store w' !! d = store w !! d) ∧
    (∀ v, v ∈ line → (name, version v) ∈ locked w →
          is_Some (store w !! (name, version v)) → v ∈ line') ∧
    (∀ v, v ∈ line → v ∉ line' → store w' !! (name, version v) = None).
Proof.
  revert removed w line.
  induction to_remove as [|x rest IH]; intros removed w line Hl.
  - exists removed, w, line. simpl. split_and!; try done.
    + by rewrite insert_id.
    + lia.
    + intros l1 l2 -> _. by exists l1.
    + intros d. by right.
  - destruct (cleanup_try_step name x removed w line Hl)
      as (n1 & w1 & line1 & Hrun & Hm1 & Hcp1 & Hlu1 & Hlk1 & Hf1 & Hrp1
          & Hshr1 & Hkeep1 & Hcase).
    assert (models (registry w1) !! name = Some line1) as Hl1
      by (by rewrite Hm1, lookup_insert_eq).
    destruct (IH n1 w1 line1 Hl1)
      as (n & w' & line' & Hloop & Hm & Hcp & Hlu & Hlk & Hf & Hrp & Hsub
          & Hn & Hsuf & Hshr & Hkeep & Hlocked & Hgone).
    exists n, w', line'. simpl. unfold bind. rewrite Hrun.
    split; [done|].
    assert (∀ d, store w' !! d = None ∨ store w' !! d = store w !! d)
      as Hshr'.
    { intros d. destruct (Hshr d) as [?|Heq]; [by left|].
      rewrite Heq. apply Hshr1. }
    assert (∀ d, d ∈ locked w → store w' !! d = store w !! d) as Hkeep'.
    { intros d Hd. rewrite Hkeep by (by rewrite Hlk1). by apply Hkeep1. }
    split_and!; try congruence; try done.
    + by rewrite Hm, Hm1, insert_insert_eq.
    + destruct Hcase as [(-> & _)|(Hr & _)]; [done|].
      etrans; [done|]. by apply list_remove_first_Some in Hr as (_ & ? & _).
    + destruct Hcase as [(-> & -> & _)|(Hr & -> & _)]; [done|].
      apply list_remove_first_Some in Hr as (_ & _ & Hlen & _).
      apply sublist_length in Hsub. lia.
    + intros l1 l2 Heq Hnot.
      destruct Hcase as [(-> & _)|(Hr & _)].
      * apply (Hsuf l1 l2 Heq). intros v Hv. apply Hnot. by right.
      * apply list_remove_first_Some in Hr as (_ & _ & _ & _ & Hsuf1).
        destruct (Hsuf1 l1 l2 Heq) as [l1' Hl1']; [apply Hnot; left|].
        apply (Hsuf l1' l2 Hl1'). intros v Hv. apply Hnot. by right.
    + intros v Hv Hvl Hvs.
      assert (v ∈ line1) as Hv1.
      { destruct Hcase as [(-> & _)|(Hr & _ & _ & Hnb)]; [done|].
        apply list_remove_first_Some in Hr as (_ & _ & _ & Hmem & _).
        apply Hmem; [done|]. intros ->. by apply Hnb. }
      apply Hlocked; [done|by rewrite Hlk1|]. by rewrite Hkeep1.
    + intros v Hv Hnot.
      destruct (decide (v ∈ line1)) as [Hv1|Hv1]; [by apply Hgone|].
      destruct Hcase as [(-> & _)|(Hr & _ & Hdel & _)]; [done|].
      apply list_remove_first_Some in Hr as (_ & _ & _ & Hmem & _).
      destruct (decide (v = x)) as [->|Hne]; [|by specialize (Hmem v Hv Hne)].
      destruct (Hshr (name, version x)) as [?|Heq]; [done|]. by rewrite Heq.
Qed.

Lemma removal_candidates_outside_window versions production keep_last_n
    keep_production v :
  v ∈ removal_candidates versions production keep_last_n keep_production →
  v ∈ versions ∧ v ∉ py_slice_from (- keep_last_n) versions.
Proof.
  unfold removal_candidates.
  assert (v ∈ filter (λ v, v ∉ py_slice_from (- keep_last_n) versions) versions
          → v ∈ versions ∧ v ∉ py_slice_from (- keep_last_n) versions) as Hf.
  { intros [? ?]%list_elem_of_filter. done. }
  destruct production as [pv|]; [|done].
  destruct (keep_production && bool_decide (pv ≠ "")); [|done].
  intros [_ ?]%list_elem_of_filter. by apply Hf.
Qed.

(** What a cleanup of a registered model amounts to. *)
Lemma cleanup_old_versions_spec now name keep_last_n keep_production w line :
  models (registry w) !! name = Some line →
  ∃ n w1 line',
    cleanup_loop name
      (removal_candidates line (current_production (registry w) !! name)
         keep_last_n keep_production) 0 w = (Ok n, w1) ∧
    cleanup_old_versions now name keep_last_n keep_production w
    = (Ok n, run_steps (save_steps now) w1) ∧
    models (registry w1) = <[name := line']> (models (registry w)) ∧
    current_production (registry w1) = current_production (registry w) ∧
    locked w1 = locked w ∧
    sublist line' line ∧
    n = Z.of_nat (length line - length line') ∧
    (∃ l1', line' = l1' ++ py_slice_from (- keep_last_n) line) ∧
    (∀ d, store w1 !! d = None ∨ store w1 !! d = store w !! d) ∧
    (∀ v, v ∈ line → (name, version v) ∈ locked w →
          is_Some (store w !! (name, version v)) → v ∈ line') ∧
    (∀ v, v ∈ line → v ∉ line' → store w1 !! (name, version v) = None).
Proof.
  intros Hl.
  destruct (cleanup_loop_spec name
              (removal_candidates line (current_production (registry w) !! name)
                 keep_last_n keep_production) 0 w line Hl)
    as (n & w1 & line' & Hloop & Hm & Hcp & _ & Hlk & _ & _ & Hsub & Hn & Hsuf
        & Hshr & _ & Hlocked & Hgone).
  exists n, w1, line'. split_and!; try done.
  - unfold cleanup_old_versions, bind, gets. rewrite Hl. by rewrite Hloop.
  - unfold py_slice_from. cbv zeta. set (i := Z.to_nat _).
    apply (Hsuf (take i line)); [by rewrite take_drop|].
    intros v Hv. by apply removal_candidates_outside_window in Hv as [_ ?].
Qed.



(** X9. A record that a cleanup takes out of the line has no version
    directory afterwards: the directory is removed before the record. *)
Theorem cleanup_removes_directory now name keep_last_n keep_production w line v :
  models (registry w) !! name = Some line →
  v ∈ line →
  let r := cleanup_old_versions now name keep_last_n keep_production w in
  v ∉ line_of (registry r.2) name →
  store r.2 !! (name, version v) = None.
Proof.
  intros Hl Hv r. subst r.
  destruct (cleanup_old_versions_spec now name keep_last_n keep_production
              w line Hl)
    as (n & w1 & line' & _ & -> & Hm & _ & _ & _ & _ & _ & _ & _ & Hgone).
  cbn [fst snd].
  assert (line_of (registry w1) name = line') as Hline
    by (unfold line_of; by rewrite Hm, lookup_insert_eq).
  intros Hnot. apply Hgone; [done|]. by rewrite <- Hline.
Qed.

(** ** Deprecation *)

Lemma deprecate_loop_unknown ver line :
  ver ∉ version <$> line → deprecate_loop ver line = line.
Proof.
  induction line as [|v rest IH]; simpl; [done|].
  intros [Hv Hrest]%not_elem_of_cons.
  rewrite decide_False by congruence. by rewrite IH.
Qed.

Lemma deprecate_loop_known ver line :
  ver ∈ version <$> line →
  ∃ l1 v l2, line = l1 ++ v :: l2 ∧ version v = ver ∧
             (ver ∉ version <$> l1) ∧
             deprecate_loop ver line = l1 ++ with_status "deprecated" v :: l2.
Proof.
  induction line as [|x rest IH]; simpl.
  - by intros ?%not_elem_of_nil.
  - intros Hin. destruct (decide (version x = ver)) as [Hx|Hx].
    + exists [], x, rest. split_and!; try done. apply not_elem_of_nil.
    + apply elem_of_cons in Hin as [?|Hin]; [congruence|].
      destruct (IH Hin) as (l1 & v & l2 & -> & Hv & Hnot & ->).
      exists (x :: l1), v, l2. split_and!; try done.
      simpl. apply not_elem_of_cons. split; [congruence|done].
Qed.

Lemma deprecate_loop_fields ver line :
  Forall2 (λ v' v, version v' = version v ∧
                   is_production v' = is_production v)
          (deprecate_loop ver line) line.
Proof.
  induction line as [|x rest IH]; simpl; [constructor|].
  destruct (decide (version x = ver)).
  - constructor; [done|]. apply Forall2_same_length_lookup. split; [done|].
    intros i a b Ha Hb. by simplify_eq.
  - by constructor.
Qed.

(** What [deprecate_version] does to the world. *)
Lemma deprecate_version_run now name ver w :
  deprecate_version now name ver w
  = (Ok tt,
     run_steps (save_steps now)
       match models (registry w) !! name with
       | Some line =>
           set_registry
             (set_models (<[name := deprecate_loop ver line]> (models (registry w)))
                (registry w)) w
       | None => w
       end).
Proof. reflexivity. Qed.

(** X10. [deprecate_version] never raises and always saves the
    registry.  For an unknown model name or version it changes no
    record.  Otherwise the first record of the line carrying the
    version, and only that one, gets the status ['deprecated'], every
    other field of it as before, so a deprecated record that is in
    production stays in production; pointers, other lines and version
    directories are untouched. *)
Theorem deprecate_version_effect now name ver w :
  let r := deprecate_version now name ver w in
  r.1 = Ok tt ∧
  registry_file r.2 = Some (Document (to_dict (registry r.2))) ∧
  current_production (registry r.2) = current_production (registry w) ∧
  store r.2 = store w ∧
  (∀ other, other ≠ name →
     models (registry r.2) !! other = models (registry w) !! other) ∧
  (ver ∉ version <$> line_of (registry w) name →
   models (registry r.2) = models (registry w)) ∧
  (ver ∈ version <$> line_of (registry w) name →
   ∃ l1 v l2,
     line_of (registry w) name = l1 ++ v :: l2 ∧
     version v = ver ∧ (ver ∉ version <$> l1) ∧
     line_of (registry r.2) name = l1 ++ with_status "deprecated" v :: l2).
Proof.
  intros r. subst r. rewrite deprecate_version_run. cbn [fst snd].
  unfold line_of.
  destruct (models (registry w) !! name) as [line|] eqn:Hl; simpl.
  - split_and!; try done.
    + intros other Hne. by rewrite lookup_insert_ne.
    + intros Hnot. rewrite deprecate_loop_unknown by done. by apply insert_id.
    + intros Hin. destruct (deprecate_loop_known _ _ Hin)
        as (l1 & v & l2 & -> & Hv & Hnot & Hloop).
      exists l1, v, l2. split_and!; try done.
      by rewrite lookup_insert_eq, Hloop.
  - split_and!; try done. by intros ?%not_elem_of_nil.
Qed.

(** ** Consistency under every operation *)

Lemma parsed_line_sublist line' line ts :
  sublist line' line → parsed_line line ts →
  ∃ ts', parsed_line line' ts' ∧ sublist ts' ts.
Proof.
  intros Hsub. revert ts.
  induction Hsub as [|x l1 l2 Hsub IH|x l1 l2 Hsub IH]; intros ts Hp.
  - exists []. split; [constructor|]. apply sublist_nil_l.
  - apply Forall2_cons_inv_l in Hp as (t & ts0 & Ht & Hp & ->).
    destruct (IH ts0 Hp) as (ts' & Hp' & Hs').
    exists (t :: ts'). split; [by constructor|by apply sublist_skip].
  - apply Forall2_cons_inv_l in Hp as (t & ts0 & Ht & Hp & ->).
    destruct (IH ts0 Hp) as (ts' & Hp' & Hs').
    exists ts'. split; [done|by apply sublist_cons].
Qed.

Lemma StronglySorted_sublist {A} (R : relation A) l' l :
  sublist l' l → StronglySorted R l → StronglySorted R l'.
Proof.
  induction 1 as [|x l1 l2 Hsub IH|x l1 l2 Hsub IH]; intros Hs; [done|..].
  - apply StronglySorted_cons in Hs as [Hall Hs].
    apply StronglySorted_cons. split; [|by apply IH].
    eapply Forall_forall. intros y Hy. eapply Forall_forall; [exact Hall|].
    by eapply elem_of_sublist.
  - apply StronglySorted_cons in Hs as [_ Hs]. by apply IH.
Qed.

Lemma strictly_increasing_sublist line' line :
  sublist line' line → strictly_increasing line → strictly_increasing line'.
Proof.
  intros Hsub (ts & Hp & Hs).
  destruct (parsed_line_sublist _ _ _ Hsub Hp) as (ts' & Hp' & Hs').
  exists ts'. split; [done|]. by eapply StronglySorted_sublist.
Qed.

Lemma line_consistent_sublist production line' line :
  sublist line' line → line_consistent production line →
  line_consistent production line'.
Proof.
  intros Hsub [Hinc Hflag]. split.
  - by eapply strictly_increasing_sublist.
  - intros v Hv. apply Hflag. by eapply elem_of_sublist.
Qed.

Lemma line_consistent_deprecate production ver line :
  line_consistent production line →
  line_consistent production (deprecate_loop ver line).
Proof.
  intros [(ts & Hp & Hs) Hflag].
  pose proof (deprecate_loop_fields ver line) as Hf. split.
  - exists ts. split; [|done].
    unfold parsed_line in *. apply Forall2_same_length_lookup. split.
    + by rewrite (Forall2_length _ _ _ Hf), (Forall2_length _ _ _ Hp).
    + intros i v' t Hi Ht.
      destruct (Forall2_lookup_l _ _ _ _ _ Hf Hi) as (v & Hv & Hver & _).
      destruct (Forall2_lookup_l _ _ _ _ _ Hp Hv) as (t0 & Ht0 & Hparse).
      rewrite Hver. congruence.
  - intros v' Hv' Hprod.
    apply list_elem_of_lookup_1 in Hv' as [i Hi].
    destruct (Forall2_lookup_l _ _ _ _ _ Hf Hi) as (v & Hv & Hver & Hfl).
    rewrite Hver. apply Hflag; [by eapply list_elem_of_lookup_2|congruence].
Qed.

Lemma run_op_consistent o w :
  registry_consistent (registry w) →
  registry_consistent (registry (run_op o w)).
Proof.
  intros Hc.
  destruct o as [now_created now_saved a|now name ver|now name ver
                |now name keep_last_n keep_production|now name path];
    cbn [run_op].
  - by apply (run_call_consistent (CallRegister now_created now_saved a)).
  - by apply promote_consistent.
  - rewrite deprecate_version_run. cbn [snd].
    destruct (models (registry w) !! name) as [line|] eqn:Hl; [|done].
    intros name' line'. simpl.
    destruct (decide (name = name')) as [<-|Hne].
    + rewrite lookup_insert_eq. intros [= <-].
      apply line_consistent_deprecate. by apply Hc.
    + rewrite lookup_insert_ne by done. apply Hc.
  - destruct (models (registry w) !! name) as [line|] eqn:Hl.
    + destruct (cleanup_old_versions_spec now name keep_last_n keep_production
                  w line Hl)
        as (n & w1 & line' & _ & -> & Hm & Hcp & _ & Hsub & _).
      cbn [snd]. intros name' line0.
      change (models (registry w1) !! name' = Some line0 →
              line_consistent (current_production (registry w1) !! name') line0).
      rewrite Hm, Hcp.
      destruct (decide (name = name')) as [<-|Hne].
      * rewrite lookup_insert_eq. intros [= <-].
        eapply line_consistent_sublist; [done|]. by apply Hc.
      * rewrite lookup_insert_ne by done. apply Hc.
    + unfold cleanup_old_versions, bind, gets. by rewrite Hl.
  - unfold export_lineage, bind, gets.
    by destruct (models (registry w) !! name).
Qed.

Lemma run_ops_consistent os w :
  registry_consistent (registry w) →
  registry_consistent (registry (run_ops os w)).
Proof.
  revert w. induction os as [|o os IH]; intros w Hc; simpl; [done|].
  apply IH. by apply run_op_consistent.
Qed.

(** X11. After any sequence of registrations, promotions, deprecations,
    cleanups and lineage exports on a new registry, whether they return
    or raise, every model line has strictly increasing (hence distinct)
    versions, at most one record flagged as production, and a flagged
    record carries the version of the production pointer. *)
Theorem operations_keep_one_production (os : list Op)
    (file : option FileContents)
    (st : gmap (string * string) (gmap string FileData))
    (lk : gset (string * string)) (rp : gmap string Lineage)
    (name : string) :
  let w := run_ops os {| registry := new_registry; registry_file := file;
                         store := st; locked := lk; reports := rp |} in
  let line := line_of (registry w) name in
  strictly_increasing line ∧
  NoDup (version <$> line) ∧
  (length (production_records line) ≤ 1)%nat ∧
  ∀ v, v ∈ line → is_production v = true →
       current_production (registry w) !! name = Some (version v).
Proof.
  intros w line.
  assert (registry_consistent (registry w)) as Hc.
  { apply run_ops_consistent. simpl. apply new_registry_consistent. }
  pose proof (line_of_consistent _ name Hc) as Hinc. fold line in Hinc.
  assert (∀ v, v ∈ line → is_production v = true →
               current_production (registry w) !! name = Some (version v))
    as Hflag.
  { subst line. unfold line_of.
    destruct (models (registry w) !! name) as [l|] eqn:Hl; simpl.
    - by destruct (Hc _ _ Hl).
    - by intros v ?%not_elem_of_nil. }
  split_and!; [done|by apply strictly_increasing_NoDup| |done].
  destruct (production_records line) as [|v0 rest] eqn:Hrec; [simpl; lia|].
  rewrite <- Hrec.
  apply (production_records_at_most_one (version v0));
    [by apply strictly_increasing_NoDup|].
  assert (v0 ∈ production_records line) as Hin0 by (rewrite Hrec; left).
  apply list_elem_of_filter in Hin0 as [Hp0 Hin0].
  intros v Hin Hprod.
  pose proof (Hflag v Hin Hprod). pose proof (Hflag v0 Hin0 Hp0). congruence.
Qed.

(** ** Loading *)

Lemma find_version_None ver line :
  ver ∉ version <$> line →
  List.find (λ r, bool_decide (version r = ver)) line = None.
Proof.
  induction line as [|x line IH]; simpl; [done|].
  intros [Hx Hrest]%not_elem_of_cons.
  rewrite bool_decide_eq_false_2 by congruence. by apply IH.
Qed.

(** X12. The failures of [load_model]: an unregistered name raises
    [ValueError("Model ... not found in registry")]; a version that no
    record of the line carries raises
    [ValueError("Version ... not found for model ...")]; without a
    version the production pointer is used when there is one, so a
    pointer whose version is no longer in the line raises that error
    too, with no fall-back to the latest record; and a model with an
    empty line and no pointer raises [IndexError]. *)
Theorem load_model_failures w name :
  (models (registry w) !! name = None →
   ∀ ver, load_model w name ver
          = Raise (ValueError ("Model " +:+ name +:+ " not found in registry"))) ∧
  (∀ line ver, models (registry w) !! name = Some line →
     ver ∉ version <$> line →
     load_model w name (Some ver)
     = Raise (ValueError ("Version " +:+ ver +:+ " not found for model "
                            +:+ name))) ∧
  (∀ pv, is_Some (models (registry w) !! name) →
     current_production (registry w) !! name = Some pv →
     load_model w name None = load_model w name (Some pv)) ∧
  (∀ line pv, models (registry w) !! name = Some line →
     current_production (registry w) !! name = Some pv →
     pv ∉ version <$> line →
     load_model w name None
     = Raise (ValueError ("Version " +:+ pv +:+ " not found for model "
                            +:+ name))) ∧
  (models (registry w) !! name = Some [] →
   current_production (registry w) !! name = None →
   load_model w name None = Raise IndexError).
Proof.
  split_and!.
  - intros Hl ver. unfold load_model. by rewrite Hl.
  - intros line ver Hl Hnot. unfold load_model. rewrite Hl.
    by rewrite find_version_None.
  - intros pv [line Hl] Hcp. unfold load_model. by rewrite Hl, Hcp.
  - intros line pv Hl Hcp Hnot. unfold load_model. rewrite Hl, Hcp.
    by rewrite find_version_None.
  - intros Hl Hcp. unfold load_model. by rewrite Hl, Hcp.
Qed.

Lemma load_model_Ok_inv w name ver model info :
  load_model w name (Some ver) = Ok (model, info) →
  version info = ver ∧
  info ∈ line_of (registry w) name ∧
  joblib_load w name ver (model_file info) = Ok model ∧
  ∃ older newer, line_of (registry w) name = older ++ info :: newer ∧
                 ver ∉ version <$> older.
Proof.
  unfold load_model, line_of.
  destruct (models (registry w) !! name) as [line|]; [|done]. simpl.
  destruct (List.find _ line) as [r|] eqn:Hfind; [|done].
  destruct (joblib_load w name ver (model_file r)) as [m|] eqn:Hload; [|done].
  intros [= <- <-].
  assert (version r = ver ∧ r ∈ line ∧
          ∃ older newer, line = older ++ r :: newer ∧ ver ∉ version <$> older)
    as (? & ? & ?); [|done].
  clear Hload. induction line as [|x line IH]; simpl in Hfind; [done|].
  destruct (bool_decide (version x = ver)) eqn:Hx.
  - injection Hfind as ->. apply bool_decide_eq_true in Hx.
    split_and!; [done|left|]. exists [], line. split; [done|].
    apply not_elem_of_nil.
  - apply bool_decide_eq_false in Hx.
    destruct (IH Hfind) as (? & ? & older & newer & -> & Hnot).
    split_and!; [done|by right|]. exists (x :: older), newer.
    split; [done|]. simpl. apply not_elem_of_cons. split; [congruence|done].
Qed.

(** X13. What a successful [load_model] returns: the first record of
    the model's line that carries the chosen version, and the model
    stored in that version's directory under the record's
    [model_file].  The chosen version is the requested one, else the
    production pointer when there is one, else the version of the
    latest record. *)
Theorem load_model_returns w name ver model info :
  load_model w name ver = Ok (model, info) →
  (match ver with
   | Some v => version info = v
   | None =>
       match current_production (registry w) !! name with
       | Some pv => version info = pv
       | None => version <$> last (line_of (registry w) name)
                 = Some (version info)
       end
   end) ∧
  info ∈ line_of (registry w) name ∧
  joblib_load w name (version info) (model_file info) = Ok model ∧
  ∃ older newer, line_of (registry w) name = older ++ info :: newer ∧
                 version info ∉ version <$> older.
Proof.
  intros Hload.
  assert (∃ v, load_model w name (Some v) = Ok (model, info) ∧
               match ver with
               | Some v' => v = v'
               | None =>
                   match current_production (registry w) !! name with
                   | Some pv => v = pv
                   | None => version <$> last (line_of (registry w) name) = Some v
                   end
               end) as (v & Hv & Hchosen).
  { destruct ver as [v|]; [by exists v|].
    unfold load_model, line_of in *.
    destruct (models (registry w) !! name) as [line|]; [|done]. simpl.
    destruct (current_production (registry w) !! name) as [pv|];
      [by exists pv|].
    destruct (last line) as [latest|]; [|done]. by exists (version latest). }
  apply load_model_Ok_inv in Hv as (<- & Hin & Hjob & Hfirst).
  split_and!; done.
Qed.

(** X14. [get_production_models] has an entry for a name exactly when
    the name has a production pointer and the load of the pointed
    version succeeds, and the entry is the result of that load; a
    pointer whose load fails is left out without failing the call.  So
    the record of an entry carries the pointer's version and is in the
    model's line. *)
Theorem get_production_models_entries w name :
  (∀ entry, get_production_models w !! name = Some entry ↔
     ∃ pv, current_production (registry w) !! name = Some pv ∧
           load_model w name (Some pv) = Ok entry) ∧
  (get_production_models w !! name = None ↔
     current_production (registry w) !! name = None ∨
     ∃ pv e, current_production (registry w) !! name = Some pv ∧
             load_model w name (Some pv) = Raise e) ∧
  (∀ model info, get_production_models w !! name = Some (model, info) →
     current_production (registry w) !! name = Some (version info) ∧
     info ∈ line_of (registry w) name).
Proof.
  unfold get_production_models.
  assert (∀ entry, map_imap
            (λ name ver, match load_model w name (Some ver) with
                         | Ok r => Some r
                         | Raise _ => None
                         end) (current_production (registry w)) !! name
          = Some entry ↔
          ∃ pv, current_production (registry w) !! name = Some pv ∧
                load_model w name (Some pv) = Ok entry) as Hiff.
  { intros entry. rewrite map_lookup_imap.
    destruct (current_production (registry w) !! name) as [pv|]; simpl.
    - destruct (load_model w name (Some pv)) as [r|e] eqn:Hload.
      + split.
        * intros [= ->]. by exists pv.
        * intros (pv' & [= <-] & Heq). congruence.
      + split; [done|]. intros (pv' & [= <-] & Heq). congruence.
    - split; [done|]. by intros (pv' & ? & _). }
  split_and!.
  - exact Hiff.
  - rewrite map_lookup_imap.
    destruct (current_production (registry w) !! name) as [pv|]; simpl.
    + destruct (load_model w name (Some pv)) as [r|e] eqn:Hload.
      * split; [done|]. intros [?|(pv' & e & [= <-] & Heq)]; [done|congruence].
      * split; [|done]. intros _. right. by exists pv, e.
    + split; [|done]. intros _. by left.
  - intros model info (pv & Hcp & Hload)%Hiff.
    apply load_model_Ok_inv in Hload as (<- & ? & _). done.
Qed.

(** ** Comparison *)

(** The lookup loop of [compare_versions] has no [break]: each slot
    ends with the last record of the line that carries its version. *)
Lemma compare_lookup_last version1 version2 line o1 o2 :
  version1 ≠ version2 →
  compare_lookup version1 version2 line o1 o2
  = (from_option Some o1 (last (filter (λ v, version v = version1) line)),
     from_option Some o2 (last (filter (λ v, version v = version2) line))).
Proof.
  intros Hne. revert o1 o2.
  induction line as [|v rest IH]; intros o1 o2; simpl; [done|].
  rewrite !filter_cons.
  destruct (decide (version v = version1)) as [Hv1|Hv1].
  - rewrite (decide_False (P := version v = version2)) by congruence.
    rewrite IH. f_equal. rewrite last_cons.
    destruct (last (filter (λ v, version v = version1) rest)); reflexivity.
  - destruct (decide (version v = version2)) as [Hv2|Hv2]; rewrite IH; [|done].
    f_equal. rewrite last_cons.
    destruct (last (filter (λ v, version v = version2) rest)); reflexivity.
Qed.

Lemma last_filter_None ver line :
  ver ∉ version <$> line →
  last (filter (λ v, version v = ver) line) = None.
Proof.
  intros Hnot. rewrite (filter_nil_all (λ v, version v = ver)); [done|].
  intros v Hv Heq. apply Hnot. rewrite <- Heq. by apply list_elem_of_fmap_2.
Qed.

(** X15. [compare_versions] raises
    [ValueError("One or both versions not found")] as soon as one of
    the two versions is carried by no record of the model's line, and
    so for every unregistered model name. *)
Theorem compare_versions_missing w name version1 version2 :
  version1 ∉ version <$> line_of (registry w) name ∨
  version2 ∉ version <$> line_of (registry w) name →
  compare_versions w name version1 version2
  = Raise (ValueError "One or both versions not found").
Proof.
  intros Hmiss. unfold compare_versions. fold (line_of (registry w) name).
  destruct (decide (version1 = version2)) as [<-|Hne].
  - pose proof (compare_lookup_second_slot version1
                  (line_of (registry w) name) None) as H2.
    destruct (compare_lookup _ _ _ None None) as [o1 o2]. simpl in H2.
    subst o2. by destruct o1.
  - rewrite (compare_lookup_last _ _ _ _ _ Hne).
    destruct Hmiss as [Hm|Hm]; rewrite (last_filter_None _ _ Hm); simpl;
      [done|]. by destruct (last _).
Qed.

(** X16. For two distinct versions, [compare_versions] compares the
    last record of the line carrying the first version with the last
    one carrying the second: the differences are second minus first,
    and the metrics of the result are the metrics present in either
    record.  Comparing in the other order negates the differences of
    training samples and feature count. *)
Theorem compare_versions_result w name version1 version2 v1 v2 days :
  version1 ≠ version2 →
  last (filter (λ v, version v = version1) (line_of (registry w) name)) = Some v1 →
  last (filter (λ v, version v = version2) (line_of (registry w) name)) = Some v2 →
  days_between (created_at v1) (created_at v2) = Some days →
  ∃ c, compare_versions w name version1 version2 = Ok c ∧
       cmp_version1 c = version1 ∧ cmp_version2 c = version2 ∧
       cmp_created_at_diff c = days ∧
       cmp_training_samples_diff c = training_samples v2 - training_samples v1 ∧
       cmp_feature_count_diff c = feature_count v2 - feature_count v1 ∧
       dom (cmp_metrics_comparison c) = dom (metrics v1) ∪ dom (metrics v2) ∧
       (∀ k e, cmp_metrics_comparison c !! k = Some e →
          mc_v1 e = default fzero (metrics v1 !! k) ∧
          mc_v2 e = default fzero (metrics v2 !! k) ∧
          mc_diff e = fsub (mc_v2 e) (mc_v1 e) ∧
          mc_improved e = fgt (mc_v2 e) (mc_v1 e)) ∧
       (∀ days', days_between (created_at v2) (created_at v1) = Some days' →
          ∃ c', compare_versions w name version2 version1 = Ok c' ∧
                cmp_training_samples_diff c' = - cmp_training_samples_diff c ∧
                cmp_feature_count_diff c' = - cmp_feature_count_diff c).
Proof.
  intros Hne H1 H2 Hdays.
  unfold compare_versions. fold (line_of (registry w) name).
  rewrite (compare_lookup_last _ _ _ _ _ Hne), H1, H2. simpl. rewrite Hdays.
  eexists. split; [reflexivity|]. simpl. split_and!; try done.
  - apply set_eq. intros k. rewrite elem_of_union, !elem_of_dom.
    unfold metrics_comparison. rewrite lookup_merge.
    destruct (metrics v1 !! k), (metrics v2 !! k); simpl;
      rewrite ?is_Some_alt; tauto.
  - intros k e. unfold metrics_comparison. rewrite lookup_merge.
    destruct (metrics v1 !! k), (metrics v2 !! k); simpl; intros [= <-]; done.
  - intros days' Hdays'.
    rewrite (compare_lookup_last _ _ _ _ _ (not_eq_sym Hne)), H1, H2. simpl.
    rewrite Hdays'. eexists. split; [reflexivity|]. simpl. lia.
Qed.

(** ** Listing *)

Lemma list_versions_bind_other (name : string)
    (f : list ModelVersion → list ModelVersion)
    (l : list (string * list ModelVersion)) :
  (∀ x, x ∈ l → x.1 ≠ name) →
  l ≫= (λ '(n, v_list), if bool_decide (n ≠ name) then [] else f v_list) = [].
Proof.
  induction l as [|[n vs] l IH]; intros Hall; [done|].
  rewrite bind_cons. rewrite bool_decide_eq_true_2.
  - simpl. apply IH. intros x Hx. apply Hall. by right.
  - apply (Hall (n, vs)). left.
Qed.

Lemma list_versions_bind_one (name : string)
    (f : list ModelVersion → list ModelVersion)
    (l : list (string * list ModelVersion)) line :
  NoDup l.*1 → (name, line) ∈ l →
  l ≫= (λ '(n, v_list), if bool_decide (n ≠ name) then [] else f v_list)
  = f line.
Proof.
  induction l as [|[n vs] l IH]; intros Hnd Hin.
  - by apply not_elem_of_nil in Hin.
  - rewrite fmap_cons in Hnd. apply NoDup_cons in Hnd as [Hn Hnd].
    rewrite bind_cons.
    apply elem_of_cons in Hin as [[= <- <-]|Hin].
    + rewrite bool_decide_eq_false_2 by (intros Hne; by apply Hne).
      rewrite list_versions_bind_other; [by rewrite app_nil_r|].
      intros x Hx Heq. apply Hn.
      apply (list_elem_of_fmap_2 fst l x) in Hx. by rewrite Heq in Hx.
    + rewrite bool_decide_eq_true_2; [by apply IH|].
      intros ->. apply Hn.
      by apply (list_elem_of_fmap_2 fst l (name, line)) in Hin.
Qed.

(** X17. [list_versions] with a non-empty model name returns the
    records of that model's line, in the order of the line, restricted
    to the given status when a non-empty status is given; an
    unregistered name gives the empty list.  In general a record is
    listed exactly when it is in the line of some model allowed by the
    name filter and has the status allowed by the status filter, an
    absent or empty filter allowing everything. *)
Theorem list_versions_filters reg name_filter status_filter :
  (∀ name, name_filter = Some name → name ≠ "" →
     list_versions reg name_filter status_filter
     = list_versions_of status_filter (line_of reg name)) ∧
  (∀ line,
     list_versions_of status_filter line
     = match status_filter with
       | Some st => if decide (st = "") then line
                    else filter (λ v, status v = st) line
       | None => line
       end) ∧
  (∀ v, v ∈ list_versions reg name_filter status_filter ↔
        ∃ name line, models reg !! name = Some line ∧ v ∈ line ∧
                     (given name_filter = true → name_filter = Some name) ∧
                     (given status_filter = true →
                      status_filter = Some (status v))).
Proof.
  split_and!.
  - intros name -> Hname. unfold list_versions. simpl.
    rewrite (bool_decide_eq_true_2 (name ≠ "")) by done. simpl.
    assert (∀ l : list (string * list ModelVersion),
              l ≫= (λ '(n, v_list),
                      if bool_decide (Some n ≠ Some name) then []
                      else list_versions_of status_filter v_list)
              = l ≫= (λ '(n, v_list),
                        if bool_decide (n ≠ name) then []
                        else list_versions_of status_filter v_list)) as ->.
    { intros l. induction l as [|[n vs] l IH]; [done|].
      rewrite !bind_cons, IH. f_equal.
      destruct (decide (n = name)) as [->|Hn].
      - by rewrite !bool_decide_eq_false_2 by (intros Hne; by apply Hne).
      - by rewrite !bool_decide_eq_true_2 by congruence. }
    unfold line_of. destruct (models reg !! name) as [line|] eqn:Hl; simpl.
    + apply list_versions_bind_one.
      * apply NoDup_fst_map_to_list.
      * by apply elem_of_map_to_list.
    + apply list_versions_bind_other.
      intros [n vs] Hx%elem_of_map_to_list Heq. simpl in Heq. congruence.
  - intros line. unfold list_versions_of.
    destruct status_filter as [st|]; simpl.
    + destruct (decide (st = "")) as [->|Hst].
      * induction line as [|v line IH]; [done|].
        rewrite filter_cons, decide_True; [by rewrite IH|].
        by intros [? _].
      * rewrite (bool_decide_eq_true_2 (st ≠ "")) by done.
        apply list_filter_iff. intros v. split.
        -- intros Hkeep. destruct (decide (status v = st)) as [|Hne]; [done|].
           exfalso. apply Hkeep. split; [done|congruence].
        -- intros <- [_ Hne]. by apply Hne.
    + induction line as [|v line IH]; [done|].
      rewrite filter_cons, decide_True; [by rewrite IH|].
      by intros [? _].
  - intros v. unfold list_versions. rewrite list_elem_of_bind. split.
    + intros ([n vs] & Hv & Hin%elem_of_map_to_list).
      destruct (given name_filter && bool_decide (Some n ≠ name_filter))
        eqn:Hskip; [by apply not_elem_of_nil in Hv|].
      apply list_elem_of_filter in Hv as [Hst Hv].
      exists n, vs. split_and!; [done..| |].
      * intros Hg. rewrite Hg in Hskip. simpl in Hskip.
        apply bool_decide_eq_false in Hskip.
        destruct (decide (name_filter = Some n)); [done|].
        exfalso. apply Hskip. congruence.
      * intros Hg. destruct (decide (status_filter = Some (status v)));
          [done|]. exfalso. apply Hst. split; [done|congruence].
    + intros (n & line & Hl & Hv & Hname & Hstatus).
      exists (n, line). split; [|by apply elem_of_map_to_list].
      destruct (given name_filter) eqn:Hg; simpl.
      * rewrite bool_decide_eq_false_2.
        -- apply list_elem_of_filter. split; [|done].
           intros [Hgs Hne]. apply Hne. symmetry. by apply Hstatus.
        -- intros Hne. apply Hne. symmetry. by apply Hname.
      * apply list_elem_of_filter. split; [|done].
        intros [Hgs Hne]. apply Hne. symmetry. by apply Hstatus.
Qed.

(** ** Restarting on the saved document *)

Lemma load_to_dict reg : _load_registry (Some (Document (to_dict reg))) = Ok reg.
Proof. by destruct reg. Qed.

Lemma init_committed w :
  registry_file w = Some (Document (to_dict (registry w))) →
  init (registry_file w) (store w) (locked w) (reports w) = Ok w.
Proof.
  intros Hf. unfold init. rewrite Hf, load_to_dict. rewrite <- Hf.
  by destruct w.
Qed.

(** X18. The document written by a save reads back as the registry
    that was saved.  Hence a registry object built anew on the model
    directory after a registration or promotion that returned, after a
    deprecation, or after a cleanup of a registered model, is in the
    state the operation left: same lines, pointers and timestamp. *)
Theorem restart_after_commit :
  (∀ reg, _load_registry (Some (Document (to_dict reg))) = Ok reg) ∧
  (∀ now_created now_saved a w v,
     (register_model now_created now_saved a w).1 = Ok v →
     let w' := (register_model now_created now_saved a w).2 in
     init (registry_file w') (store w') (locked w') (reports w') = Ok w') ∧
  (∀ now name ver w,
     (promote_to_production now name ver w).1 = Ok tt →
     let w' := (promote_to_production now name ver w).2 in
     init (registry_file w') (store w') (locked w') (reports w') = Ok w') ∧
  (∀ now name ver w,
     let w' := (deprecate_version now name ver w).2 in
     init (registry_file w') (store w') (locked w') (reports w') = Ok w') ∧
  (∀ now name keep_last_n keep_production w,
     is_Some (models (registry w) !! name) →
     let w' := (cleanup_old_versions now name keep_last_n keep_production w).2 in
     init (registry_file w') (store w') (locked w') (reports w') = Ok w').
Proof.
  split_and!.
  - apply load_to_dict.
  - intros now_created now_saved a w v Hok w'. subst w'.
    apply init_committed.
    destruct (_get_next_version (registry w) (a_model_name a) (a_bump a))
      as [vs|e] eqn:Hvs.
    + destruct (register_model_effect now_created now_saved a w vs Hvs)
        as (v' & w' & Hrun & _ & _ & _ & _ & Hdoc & _).
      by rewrite Hrun.
    + by rewrite (register_model_raise _ _ _ _ _ Hvs) in Hok.
  - intros now name ver w Hok w'. subst w'. apply init_committed.
    destruct (models (registry w) !! name) as [line|] eqn:Hl.
    + destruct (decide (ver ∈ version <$> line)) as [Hin|Hnot].
      * by rewrite (promote_found _ _ _ _ _ Hl Hin).
      * by rewrite (promote_missing _ _ _ _ _ Hl Hnot) in Hok.
    + by rewrite (promote_absent _ _ _ _ Hl) in Hok.
  - intros now name ver w w'. subst w'. apply init_committed.
    by rewrite deprecate_version_run.
  - intros now name keep_last_n keep_production w [line Hl] w'. subst w'.
    apply init_committed.
    destruct (cleanup_old_versions_spec now name keep_last_n keep_production
                w line Hl) as (n & w1 & line' & _ & -> & _).
    done.
Qed.

(** ** The training script *)

(** X19. [register_model] of the training script, on a model directory
    whose document loads as a consistent registry: it returns the patch
    bump of the latest version on disk (1.0.0 for a new model), having
    appended a record created by ['train_all.py'].  With [deploy] the
    record is the production record of the model: the pointer names its
    version and [get_production_models] returns the model just trained
    with it.  Without [deploy] the pointers are those of the document. *)
Theorem train_register_model_result now_text now_created now_saved now_promoted
    model name type model_metrics duration deploy w reg :
  _load_registry (registry_file w) = Ok reg →
  registry_consistent reg →
  let r := train_register_model now_text now_created now_saved now_promoted
             model name type model_metrics duration deploy w in
  ∃ info,
    r.1 = Ok (version info) ∧
    _get_next_version reg name "patch" = Ok (version info) ∧
    last (line_of (registry r.2) name) = Some info ∧
    length (line_of (registry r.2) name) = S (length (line_of reg name)) ∧
    created_by info = "train_all.py" ∧ status info = "active" ∧
    is_production info = deploy ∧
    registry_file r.2 = Some (Document (to_dict (registry r.2))) ∧
    (if deploy
     then current_production (registry r.2) !! name = Some (version info) ∧
          get_production_models r.2 !! name = Some (model, info) ∧
          (∀ mm, is_initialized mm = false →
             mm_models (initialize r.2 mm) !! name = Some model ∧
             mm_model_info (initialize r.2 mm) !! name = Some info)
     else current_production (registry r.2) = current_production reg).
Proof.
  intros Hload Hc r. subst r. unfold train_register_model, init.
  rewrite Hload.
  set (w0 := {| registry := reg; registry_file := registry_file w;
                store := store w; locked := locked w; reports := reports w |}).
  set (a := {| a_model := model; a_model_name := name; a_model_type := type;
               a_description := "Trained on " +:+ now_text;
               a_metrics := model_metrics; a_training_data := None;
               a_training_samples := 0; a_feature_count := 0;
               a_training_duration := duration;
               a_created_by := "train_all.py"; a_bump := "patch";
               a_tags := None |}).
  assert (registry_consistent (registry w0)) as Hc0 by done.
  destruct (next_version_increasing _ (a_model_name a) (a_bump a)
              (line_of_consistent _ _ Hc0)) as (vs & t' & Hvs & Hparse & Hlt).
  destruct (register_model_effect now_created now_saved a w0 vs Hvs)
    as (v & w1 & Hrun & (Hv & _ & Hst & Hprod & Hfile & _) & Hm & Hcp & _
        & Hdoc & Hstore & _).
  assert (created_by v = "train_all.py") as Hby.
  { unfold register_model, bind, lift in Hrun. rewrite Hvs in Hrun.
    unfold mkdir, write_file, modify in Hrun.
    destruct (store w0 !! (a_model_name a, vs)); by injection Hrun as <- _. }
  assert (version v ∉ version <$> line_of reg name) as Hfresh.
  { apply strictly_increasing_snoc_fresh.
    eapply (strictly_increasing_snoc _ _ t');
      [by apply (line_of_consistent _ _ Hc0)|by rewrite Hv|done]. }
  assert (_get_next_version reg name "patch" = Ok (version v)) as Hnext
    by (rewrite Hv; exact Hvs).
  assert (models (registry w1) = <[name := line_of reg name ++ [v]]> (models reg))
    as Hm' by exact Hm.
  assert (current_production (registry w1) = current_production reg)
    as Hcp' by exact Hcp.
  clear Hm Hcp Hvs.
  unfold bind. rewrite Hrun.
  destruct deploy.
  - erewrite (promote_found now_promoted name (version v) w1); cycle 1.
    { by rewrite Hm', lookup_insert_eq. }
    { rewrite fmap_app. apply elem_of_app. right. simpl. left. }
    cbn [fst snd ret].
    assert (promoted_line (version v) (line_of reg name ++ [v])
            = promoted_line (version v) (line_of reg name)
              ++ [with_is_production true v]) as Hpl.
    { unfold promoted_line. rewrite fmap_app. simpl.
      by rewrite bool_decide_eq_true_2. }
    rewrite Hpl.
    set (w2 := run_steps _ _).
    assert (models (registry w2)
            = <[name := promoted_line (version v) (line_of reg name)
                        ++ [with_is_production true v]]> (models (registry w1)))
      as Hm2 by done.
    assert (current_production (registry w2)
            = <[name := version v]> (current_production (registry w1)))
      as Hcp2 by done.
    assert (store w2 = store w1) as Hst2 by done.
    assert (registry_file w2 = Some (Document (to_dict (registry w2))))
      as Hdoc2 by done.
    clearbody w2.
    exists (with_is_production true v).
    assert (line_of (registry w2) name
            = promoted_line (version v) (line_of reg name)
              ++ [with_is_production true v]) as Hline2.
    { unfold line_of at 1. by rewrite Hm2, lookup_insert_eq. }
    assert (get_production_models w2 !! name
            = Some (model, with_is_production true v)) as Hget.
    { unfold get_production_models. rewrite map_lookup_imap.
      rewrite Hcp2, lookup_insert_eq. simpl.
      unfold load_model. rewrite Hm2, lookup_insert_eq.
      pose proof (find_version_snoc
                    (promoted_line (version v) (line_of reg name))
                    (with_is_production true v)) as Hfind.
      cbn [version with_is_production] in Hfind.
      rewrite Hfind by (by rewrite promoted_line_versions).
      assert (∃ dir, store w1 !! (name, version v) = Some dir ∧
                     dir !! "model.joblib" = Some (Joblib model))
        as (dir & Hdir & Hjob).
      { eexists. rewrite Hv. split; [exact Hstore|].
        rewrite lookup_insert_ne by done. apply lookup_insert_eq. }
      unfold joblib_load. rewrite Hst2. cbn [model_file with_is_production].
      by rewrite Hfile, Hdir; simpl; rewrite Hjob. }
    split_and!; try done.
    + rewrite Hline2. apply last_snoc.
    + rewrite Hline2, length_app. unfold promoted_line.
      rewrite length_fmap. simpl. lia.
    + by rewrite Hcp2, lookup_insert_eq.
    + intros mm Hmm. unfold initialize. rewrite Hmm.
      rewrite (init_committed w2 Hdoc2). simpl.
      rewrite !lookup_union, !lookup_fmap, Hget. simpl.
      by rewrite !union_Some_l.
  - cbn [fst snd ret].
    assert (line_of (registry w1) name = line_of reg name ++ [v]) as Hline1.
    { unfold line_of at 1. by rewrite Hm', lookup_insert_eq. }
    exists v. split_and!; try done.
    + rewrite Hline1. apply last_snoc.
    + rewrite Hline1, length_app. simpl. lia.
Qed.

(** ** Serving *)


(** X21. [ModelManager.initialize] does nothing on an initialized
    manager.  On another one it never fails: the manager ends
    initialized, each production model that loads from the model
    directory replaces the manager's entry of that name, and the
    entries of all other names stay as they were. *)
Theorem model_manager_initialize w mm :
  (is_initialized mm = true → initialize w mm = mm) ∧
  initialize w (initialize w mm) = initialize w mm ∧
  (is_initialized mm = false →
   ∃ w0, init (registry_file w) (store w) (locked w) (reports w) = Ok w0 ∧
         is_initialized (initialize w mm) = true ∧
         ∀ name,
           match get_production_models w0 !! name with
           | Some (model, info) =>
               mm_models (initialize w mm) !! name = Some model ∧
               mm_model_info (initialize w mm) !! name = Some info
           | None =>
               mm_models (initialize w mm) !! name = mm_models mm !! name ∧
               mm_model_info (initialize w mm) !! name
               = mm_model_info mm !! name
           end).
Proof.
  assert (∃ reg, _load_registry (registry_file w) = Ok reg) as [reg Hreg].
  { unfold _load_registry. destruct (registry_file w) as [[d|]|]; simpl; eauto. }
  split_and!.
  - intros Hi. unfold initialize. by rewrite Hi.
  - unfold initialize, init. rewrite Hreg.
    destruct (is_initialized mm) eqn:Hi; simpl; by rewrite ?Hi.
  - intros Hi. unfold initialize, init. rewrite Hi, Hreg.
    eexists. split; [reflexivity|]. split; [done|].
    intros name. simpl. rewrite !lookup_union, !lookup_fmap.
    destruct (get_production_models _ !! name) as [[model info]|]; simpl.
    + by rewrite !union_Some_l.
    + by rewrite !(left_id_L None _).
Qed.

(** ** Exact retention *)

Lemma filter_id_all {A} (P : A → Prop) `{∀ x, Decision (P x)} (l : list A) :
  (∀ x, x ∈ l → P x) → filter P l = l.
Proof.
  induction l as [|x l IH]; intros Hall; [done|].
  rewrite filter_cons, decide_True by (apply Hall; left).
  rewrite IH; [done|]. intros y Hy. apply Hall. by right.
Qed.

Lemma list_remove_first_NoDup x l :
  NoDup l → x ∈ l → list_remove_first x l = Some (filter (λ y, y ≠ x) l).
Proof.
  induction l as [|y l IH]; intros Hnd Hin; [by apply not_elem_of_nil in Hin|].
  apply NoDup_cons in Hnd as [Hy Hnd]. simpl. rewrite filter_cons.
  destruct (decide (y = x)) as [->|Hne].
  - rewrite decide_False by (intros Hne; by apply Hne). f_equal.
    symmetry. apply filter_id_all. intros z Hz ->. done.
  - rewrite decide_True by done.
    apply elem_of_cons in Hin as [?|Hin]; [congruence|].
    by rewrite IH.
Qed.

Lemma cleanup_loop_exact name to_remove removed w line :
  models (registry w) !! name = Some line →
  NoDup line → NoDup to_remove →
  (∀ v, v ∈ to_remove → v ∈ line ∧ (name, version v) ∉ locked w) →
  ∃ w',
    cleanup_loop name to_remove removed w
    = (Ok (removed + Z.of_nat (length to_remove)), w') ∧
    models (registry w')
    = <[name := filter (λ v, v ∉ to_remove) line]> (models (registry w)).
Proof.
  revert removed w line.
  induction to_remove as [|x rest IH]; intros removed w line Hl Hnd Hndr Hall.
  - exists w. simpl. rewrite Z.add_0_r. split; [done|].
    rewrite insert_id; [done|]. rewrite Hl. f_equal.
    symmetry. apply filter_id_all. intros v _. apply not_elem_of_nil.
  - apply NoDup_cons in Hndr as [Hx Hndr].
    destruct (Hall x) as [Hxin Hxlk]; [left|].
    destruct (cleanup_try_step name x removed w line Hl)
      as (n1 & w1 & line1 & Hrun & Hm1 & _ & _ & Hlk1 & _ & _ & _ & _ & Hcase).
    destruct Hcase as [(_ & _ & Hblocked)|(Hr & -> & _)];
      [by destruct (Hblocked Hxin)|].
    rewrite (list_remove_first_NoDup _ _ Hnd Hxin) in Hr. injection Hr as <-.
    destruct (IH (removed + 1) w1 (filter (λ y, y ≠ x) line))
      as (w' & Hloop & Hm).
    + by rewrite Hm1, lookup_insert_eq.
    + by apply NoDup_filter.
    + done.
    + intros v Hv. destruct (Hall v) as [Hvin Hvlk]; [by right|].
      split; [|by rewrite Hlk1]. apply list_elem_of_filter. split; [|done].
      intros ->. done.
    + exists w'. simpl. unfold bind. rewrite Hrun, Hloop. split.
      * do 2 f_equal. lia.
      * rewrite Hm, Hm1, insert_insert_eq. f_equal.
        rewrite list_filter_filter. apply list_filter_iff. intros v.
        rewrite not_elem_of_cons. split; intros [? ?]; done.
Qed.

(** X22. When the records of a model's line are pairwise different and
    none of their version directories is locked, a cleanup removes
    exactly the records it selected: those outside the slice
    [versions[-keep_last_n:]] that are not protected as production
    (protection needs [keep_production] and a non-empty pointer naming
    the record's version).  It returns their number, and with
    [keep_production] unset the line left is that slice. *)
Theorem cleanup_removes_exactly now name keep_last_n keep_production w line :
  models (registry w) !! name = Some line →
  NoDup line →
  (∀ v, v ∈ line → (name, version v) ∉ locked w) →
  let r := cleanup_old_versions now name keep_last_n keep_production w in
  let removed :=
    removal_candidates line (current_production (registry w) !! name)
      keep_last_n keep_production in
  r.1 = Ok (Z.of_nat (length removed)) ∧
  line_of (registry r.2) name = filter (λ v, v ∉ removed) line ∧
  (∀ v, v ∈ removed ↔
        v ∈ line ∧ (v ∉ py_slice_from (- keep_last_n) line) ∧
        ¬ (keep_production = true ∧
           current_production (registry w) !! name = Some (version v) ∧
           version v ≠ "")) ∧
  (keep_production = false →
   line_of (registry r.2) name = py_slice_from (- keep_last_n) line).
Proof.
  intros Hl Hnd Hlk r removed.
  assert (∀ v, v ∈ removed ↔
               v ∈ line ∧ (v ∉ py_slice_from (- keep_last_n) line) ∧
               ¬ (keep_production = true ∧
                  current_production (registry w) !! name = Some (version v) ∧
                  version v ≠ "")) as Hchar.
  { intros v. subst removed. unfold removal_candidates.
    destruct (current_production (registry w) !! name) as [pv|].
    - destruct keep_production; simpl.
      + destruct (decide (pv = "")) as [->|Hpv].
        * rewrite bool_decide_eq_false_2 by (intros Hne; by apply Hne).
          rewrite list_elem_of_filter. split.
          -- intros [? ?]. split_and!; [done..|].
             intros (_ & Hq & ?). congruence.
          -- intros (? & ? & _). done.
        * rewrite bool_decide_eq_true_2 by done.
          rewrite !list_elem_of_filter. split.
          -- intros (Hv & ? & ?). split_and!; [done..|].
             intros (_ & Hq & _). congruence.
          -- intros (? & ? & Hnot). split_and!; [|done..].
             intros Heq. apply Hnot. split_and!; [done|by rewrite Heq|].
             by rewrite Heq.
      + rewrite list_elem_of_filter. split.
        * intros [? ?]. split_and!; [done..|]. by intros [? _].
        * intros (? & ? & _). done.
    - rewrite list_elem_of_filter. split.
      + intros [? ?]. split_and!; [done..|]. by intros (_ & ? & _).
      + intros (? & ? & _). done. }
  destruct (cleanup_loop_exact name removed 0 w line Hl Hnd)
    as (w' & Hloop & Hm).
  { subst removed. unfold removal_candidates.
    destruct (current_production (registry w) !! name) as [pv|];
      [destruct (keep_production && bool_decide (pv ≠ ""))|];
      repeat apply NoDup_filter; done. }
  { intros v Hv%Hchar. destruct Hv as [Hv _]. split; [done|by apply Hlk]. }
  assert (line_of (registry r.2) name = filter (λ v, v ∉ removed) line)
    as Hline.
  { subst r. unfold cleanup_old_versions, bind, gets. rewrite Hl.
    fold removed. rewrite Hloop. cbn [fst snd].
    change (line_of (registry w') name = filter (λ v, v ∉ removed) line).
    unfold line_of. by rewrite Hm, lookup_insert_eq. }
  split_and!.
  - subst r. unfold cleanup_old_versions, bind, gets. rewrite Hl.
    fold removed. rewrite Hloop. done.
  - exact Hline.
  - exact Hchar.
  - intros ->. rewrite Hline.
    unfold py_slice_from. cbv zeta. set (i := Z.to_nat _).
    assert (∀ v, v ∈ line → (v ∉ removed ↔ v ∈ drop i line)) as Hiff.
    { intros v Hv. rewrite Hchar. unfold py_slice_from. cbv zeta. fold i.
      split.
      - intros Hnot. destruct (decide (v ∈ drop i line)); [done|].
        exfalso. apply Hnot. split_and!; [done..|]. by intros [? _].
      - intros Hin (_ & Hout & _). done. }
    assert (∀ v, v ∈ take i line → v ∈ line) as Htake.
    { intros v Hv. rewrite <- (take_drop i line). apply elem_of_app. by left. }
    assert (∀ v, v ∈ drop i line → v ∈ line) as Hdrop.
    { intros v Hv. rewrite <- (take_drop i line). apply elem_of_app. by right. }
    pose proof Hnd as Hnd'. rewrite <- (take_drop i line) in Hnd'.
    apply NoDup_app in Hnd' as (_ & Hdisj & _).
    transitivity (filter (λ v, v ∉ removed) (take i line ++ drop i line));
      [by rewrite take_drop|].
    rewrite filter_app, (filter_nil_all (λ v, v ∉ removed) (take i line)).
    + simpl. apply filter_id_all. intros v Hv.
      exact (proj2 (Hiff v (Hdrop v Hv)) Hv).
    + intros v Hv Hnot.
      exact (Hdisj v Hv (proj1 (Hiff v (Htake v Hv)) Hnot)).
Qed.

End Versioning.

(** * Concrete runs

    The lemmas below run the model on concrete inputs, with integers
    standing for the floats, strings for the model artifacts and the
    unit type for the training data. *)

(** C3 at concrete inputs: an empty registry, and a line ending in 1.2.3. *)
Lemma next_version_rule_witness :
  let reg := {| models := {["m" := [sample_record 0 "m" "1.2.3" false 5]]};
                current_production := ∅; last_updated := "" |} in
  _get_next_version (new_registry (float := Z)) "m" "minor" = Ok "1.0.0" ∧
  _get_next_version reg "m" "major" = Ok "2.0.0" ∧
  _get_next_version reg "m" "minor" = Ok "1.3.0" ∧
  _get_next_version reg "m" "patch" = Ok "1.2.4" ∧
  _get_next_version reg "m" "hotfix" = Ok "1.2.4".
Proof.
  intros reg.
  destruct (next_version_rule (float := Z) (Artifact := string)
              (λ _ : unit, "")) as (Hfirst & Hbump & _ & Hpatch).
  split_and!.
  - apply Hfirst. reflexivity.
  - apply (Hbump reg "m" "major" (sample_record 0 "m" "1.2.3" false 5) (1, 2, 3));
      reflexivity.
  - apply (Hbump reg "m" "minor" (sample_record 0 "m" "1.2.3" false 5) (1, 2, 3));
      reflexivity.
  - apply (Hpatch reg "m" (sample_record 0 "m" "1.2.3" false 5)); reflexivity.
  - apply (Hbump reg "m" "hotfix" (sample_record 0 "m" "1.2.3" false 5) (1, 2, 3));
      reflexivity.
Defined.

(** C4 at a concrete input: model ["x"] has version 1.0.0 in
    production and 9.9.9 is promoted. *)
Lemma promote_unknown_version_witness :
  let w := sample_world (float := Z) (Artifact := string)
             {["x" := [sample_record 0 "x" "1.0.0" true 5]]}
             {["x" := "1.0.0"]} in
  (promote_to_production "t" "x" "9.9.9" w).1
  = Raise (ValueError "Version 9.9.9 not found") ∧
  current_production (registry (promote_to_production "t" "x" "9.9.9" w).2)
  = {["x" := "1.0.0"]} ∧
  registry_file (promote_to_production "t" "x" "9.9.9" w).2 = registry_file w.
Proof.
  intros w.
  apply (promote_unknown_version "t" "x" "9.9.9" w
           [sample_record 0 "x" "1.0.0" true 5]).
  - reflexivity.
  - apply (bool_decide_unpack _). vm_compute. exact I.
Defined.

(** C10 at a concrete input: 1.0.0 is compared with itself. *)
Lemma compare_versions_same_version_witness :
  let w := sample_world (float := Z) (Artifact := string)
             {["x" := [sample_record 0 "x" "1.0.0" false 5;
                       sample_record 0 "x" "1.0.1" false 5]]} ∅ in
  compare_versions 0 Z.sub Z.gtb (λ _ _, Some 0) w "x" "1.0.0" "1.0.0"
  = Raise (ValueError "One or both versions not found") ∧
  is_Some (models (registry w) !! "x").
Proof.
  intros w. split.
  - apply (compare_versions_same_version 0 Z.sub Z.gtb (λ _ _, Some 0)
             w "x" "1.0.0"
             [sample_record 0 "x" "1.0.0" false 5;
              sample_record 0 "x" "1.0.1" false 5]).
    + reflexivity.
    + apply (bool_decide_unpack _). vm_compute. exact I.
  - by eexists.
Defined.

(** C5 at concrete inputs: the scenario with the model ["risk_scorer"],
    and the cleanup of the world it leaves. *)
Lemma cleanup_keeps_production_witness :
  let a := sample_args (Data := unit) 0 "weights" "risk_scorer" "patch" in
  let w := run_calls (λ _, "") [CallRegister "t1" "t2" a; CallRegister "t3" "t4" a;
                      CallRegister "t5" "t6" a;
                      CallPromote "t7" "risk_scorer" "1.0.1"]
             (fresh_world (float := Z)) in
  let r := cleanup_old_versions "t8" "risk_scorer" 1 true w in
  r.1 = Ok 1 ∧
  version <$> line_of (registry r.2) "risk_scorer" = ["1.0.1"; "1.0.2"] ∧
  filter (λ v, version v = "1.0.1") (line_of (registry r.2) "risk_scorer")
  = filter (λ v, version v = "1.0.1") (line_of (registry w) "risk_scorer").
Proof.
  intros a w r.
  destruct (cleanup_keeps_production (float := Z) (Artifact := string)
              (λ _ : unit, "")) as (Hkeep & _ & Hscenario).
  destruct (Hscenario "t1" "t2" "t3" "t4" "t5" "t6" "t7" "t8" a a a
              "risk_scorer" None ∅ ∅ ∅)
    as (_ & Hcp & Hret & Hline & _);
    [reflexivity..|apply not_elem_of_empty|].
  split_and!.
  - exact Hret.
  - exact Hline.
  - apply Hkeep; [exact Hcp|discriminate].
Defined.

(** C2, counterexample: a save that stops after the registry file has
    been opened for writing loses the document that was there; the next
    load returns an empty registry instead of the one model line. *)
Lemma save_registry_not_atomic :
  let w := sample_world (float := Z) (Artifact := string)
             {["m" := [sample_record 0 "m" "1.0.0" false 5]]} ∅ in
  _load_registry (registry_file w) = Ok (registry w) ∧
  _load_registry (registry_file (interrupted_save "t" 2 w)) = Ok new_registry ∧
  _load_registry (registry_file (interrupted_save "t" 2 w))
  ≠ _load_registry (registry_file w).
Proof.
  intros w. split_and!; [reflexivity..|].
  intros Heq.
  apply (f_equal (λ r, match r with
                       | Ok reg => models reg !! "m"
                       | Raise _ => None
                       end)) in Heq.
  vm_compute in Heq. discriminate Heq.
Qed.

(** C6, counterexample: two lines that differ in the feature count of
    their record give the same lineage report. *)
Lemma lineage_omits_fields :
  let w5 := sample_world (float := Z) (Artifact := string)
              {["m" := [sample_record 0 "m" "1.0.0" false 5]]} ∅ in
  let w7 := sample_world (float := Z) (Artifact := string)
              {["m" := [sample_record 0 "m" "1.0.0" false 7]]} ∅ in
  line_of (registry w5) "m" ≠ line_of (registry w7) "m" ∧
  (export_lineage "t" "m" "out.json" w5).1 = Ok tt ∧
  is_Some (reports (export_lineage "t" "m" "out.json" w5).2 !! "out.json") ∧
  reports (export_lineage "t" "m" "out.json" w5).2 !! "out.json"
  = reports (export_lineage "t" "m" "out.json" w7).2 !! "out.json".
Proof.
  intros w5 w7. split_and!.
  - intros Heq. apply (f_equal (fmap feature_count)) in Heq.
    vm_compute in Heq. discriminate Heq.
  - reflexivity.
  - vm_compute. by eexists.
  - reflexivity.
Qed.

(** C7, counterexample: loading an unreadable document raises nothing
    and returns an empty registry. *)
Lemma load_registry_unparsable_returns :
  _load_registry (float := Z) (Some Unparsable) = Ok new_registry ∧
  ¬ ∃ e, _load_registry (float := Z) (Some Unparsable) = Raise e.
Proof. split; [reflexivity|]. by intros [e He]. Qed.

(** C8, counterexample: cleanup on a model that is not registered
    returns 0. *)
Lemma cleanup_absent_model_returns :
  models (registry (fresh_world (float := Z) (Artifact := string))) !! "ghost"
  = None ∧
  cleanup_old_versions "t" "ghost" 5 true
    (fresh_world (float := Z) (Artifact := string))
  = (Ok 0, fresh_world).
Proof. split; reflexivity. Qed.

(** C9, counterexample: one registration and no promotion; loading the
    model without a version returns the artifact and its record. *)
Lemma load_model_without_promotion :
  let w := (register_model (λ _ : unit, "") "t1" "t2"
              (sample_args 0 "weights" "m" "patch")
              (fresh_world (float := Z))).2 in
  current_production (registry w) !! "m" = None ∧
  is_Some (models (registry w) !! "m") ∧
  ∃ v, load_model w "m" None = Ok ("weights", v) ∧ version v = "1.0.0".
Proof.
  intros w. split_and!.
  - reflexivity.
  - vm_compute. by eexists.
  - eexists. split; [vm_compute; reflexivity|reflexivity].
Qed.

(** C6 at concrete inputs: a model without a line, and a line of two
    records. *)
Lemma export_lineage_report_witness :
  let r0 := sample_record 0 "m" "1.0.0" false 5 in
  let r1 := sample_record 0 "m" "1.0.1" true 5 in
  let w := sample_world (float := Z) (Artifact := string)
             {["m" := [r0; r1]]} {["m" := "1.0.1"]} in
  (export_lineage "t" "ghost" "out.json" w).1
  = Raise (ValueError "Model ghost not found") ∧
  ∃ report,
    reports (export_lineage "t" "m" "out.json" w).2 !! "out.json" = Some report ∧
    lin_current_production report = Some "1.0.1" ∧
    le_version <$> lin_version_history report = ["1.0.0"; "1.0.1"].
Proof.
  intros r0 r1 w. split.
  - destruct (export_lineage_report "t" "ghost" "out.json" w) as [Habsent _].
    rewrite Habsent; reflexivity.
  - destruct (export_lineage_report "t" "m" "out.json" w) as [_ Hline].
    destruct (Hline [r0; r1] eq_refl)
      as (report & Hrun & _ & _ & Hcp & _ & Hlen & Hentries).
    exists report. split_and!.
    + rewrite Hrun. simpl. apply lookup_insert_eq.
    + rewrite Hcp. reflexivity.
    + destruct (Hentries 0%nat r0 eq_refl) as (e0 & He0 & Hv0 & _).
      destruct (Hentries 1%nat r1 eq_refl) as (e1 & He1 & Hv1 & _).
      destruct (lin_version_history report) as [|x0 [|x1 [|x2 rest]]];
        simpl in *; try discriminate.
      congruence.
Defined.

(** C8 at concrete inputs: an absent model, and a line of two records
    cleaned with [keep_last_n = 5]. *)
Lemma cleanup_returns_zero_witness :
  let w := sample_world (float := Z) (Artifact := string)
             {["m" := [sample_record 0 "m" "1.0.0" false 5;
                       sample_record 0 "m" "1.0.1" false 5]]} ∅ in
  cleanup_old_versions "t" "ghost" 5 true w = (Ok 0, w) ∧
  (cleanup_old_versions "t" "m" 5 true w).1 = Ok 0 ∧
  models (registry (cleanup_old_versions "t" "m" 5 true w).2)
  = models (registry w).
Proof.
  intros w.
  destruct (cleanup_returns_zero "t" "ghost" 5 true w) as (Habsent & _ & _).
  destruct (cleanup_returns_zero "t" "m" 5 true w) as (_ & Hnone & Hkeep).
  split; [apply Habsent; reflexivity|].
  destruct (Hnone [sample_record 0 "m" "1.0.0" false 5;
                   sample_record 0 "m" "1.0.1" false 5] eq_refl)
    as (Hret & Hmodels & _).
  - apply Hkeep. right. simpl. lia.
  - split; [exact Hret|exact Hmodels].
Defined.

(** C9 at a concrete input: two registrations and no promotion. *)
Lemma load_model_falls_back_to_latest_witness :
  let a := sample_args (Data := unit) 0 "weights" "m" "patch" in
  let w := run_calls (λ _, "") [CallRegister "t1" "t2" a; CallRegister "t3" "t4" a]
             (fresh_world (float := Z)) in
  load_model w "m" None = load_model w "m" (Some "1.0.1") ∧
  get_production_models w !! "m" = None.
Proof.
  intros a w.
  destruct (load_model_falls_back_to_latest w "m"
              (line_of (registry w) "m")
              {| version := "1.0.1"; model_name := "m";
                 model_type := "classification"; created_at := "t3";
                 created_by := "system"; description := ""; metrics := ∅;
                 training_data_hash := ""; training_samples := 0;
                 feature_count := 0; training_duration_seconds := 0;
                 model_file := "model.joblib";
                 metadata_file := "metadata.json"; status := "active";
                 is_production := false; tags := [] |})
    as (Hsame & _ & Hnone); [reflexivity..|].
  split; [exact Hsame|exact Hnone].
Defined.

(** * Concrete runs of the further properties *)

(** X1 at a concrete input: 1.0.1 is promoted over 1.0.0. *)
Lemma promote_existing_version_witness :
  let w := sample_world (float := Z) (Artifact := string)
             {["x" := [sample_record 0 "x" "1.0.0" true 5;
                       sample_record 0 "x" "1.0.1" false 5]]}
             {["x" := "1.0.0"]} in
  (promote_to_production "t" "x" "1.0.1" w).1 = Ok tt ∧
  current_production (registry (promote_to_production "t" "x" "1.0.1" w).2) !! "x"
  = Some "1.0.1".
Proof.
  intros w.
  destruct (promote_existing_version "t" "x" "1.0.1" w
              [sample_record 0 "x" "1.0.0" true 5;
               sample_record 0 "x" "1.0.1" false 5])
    as (Hok & Hcp & _).
  - reflexivity.
  - apply (bool_decide_unpack _). vm_compute. exact I.
  - split; [exact Hok|exact Hcp].
Defined.

(** X2 at a concrete input: 1.0.1 is promoted twice. *)
Lemma promote_twice_witness :
  let w := sample_world (float := Z) (Artifact := string)
             {["x" := [sample_record 0 "x" "1.0.0" true 5;
                       sample_record 0 "x" "1.0.1" false 5]]}
             {["x" := "1.0.0"]} in
  let w1 := (promote_to_production "t1" "x" "1.0.1" w).2 in
  (promote_to_production "t2" "x" "1.0.1" w1).1 = Ok tt ∧
  registry (promote_to_production "t2" "x" "1.0.1" w1).2
  = set_last_updated "t2" (registry w1).
Proof.
  intros w w1.
  destruct (promote_twice "t1" "t2" "x" "1.0.1" w
              [sample_record 0 "x" "1.0.0" true 5;
               sample_record 0 "x" "1.0.1" false 5])
    as (Hok & Hreg & _).
  - reflexivity.
  - apply (bool_decide_unpack _). vm_compute. exact I.
  - split; [exact Hok|exact Hreg].
Defined.

(** X3 at a concrete input: the unknown 9.9.9 is promoted while 1.0.0
    is in production. *)
Lemma promote_unknown_version_clears_flags_witness :
  let w := sample_world (float := Z) (Artifact := string)
             {["x" := [sample_record 0 "x" "1.0.0" true 5]]}
             {["x" := "1.0.0"]} in
  let w' := (promote_to_production "t" "x" "9.9.9" w).2 in
  (∀ v, v ∈ line_of (registry w') "x" → is_production v = false) ∧
  models (registry w') ≠ models (registry w).
Proof.
  intros w w'.
  destruct (promote_unknown_version_clears_flags "t" "x" "9.9.9" w
              [sample_record 0 "x" "1.0.0" true 5])
    as (_ & _ & Hflags & Hdiff & _).
  - reflexivity.
  - apply (bool_decide_unpack _). vm_compute. exact I.
  - split; [exact Hflags|]. apply Hdiff.
    exists (sample_record 0 "x" "1.0.0" true 5). split; [left|reflexivity].
Defined.

(** X6 at a concrete input: the latest version on record is ["1.0"]. *)
Lemma register_malformed_latest_witness :
  let w := sample_world (float := Z) (Artifact := string)
             {["x" := [sample_record 0 "x" "1.0" false 5]]} ∅ in
  let a := sample_args (Data := unit) 0 "weights" "x" "patch" in
  register_model (λ _, "") "t1" "t2" a w = (Raise BuiltinValueError, w).
Proof.
  intros w a.
  destruct (register_malformed_latest (λ _ : unit, "") "t1" "t2" a w
              (sample_record 0 "x" "1.0" false 5)) as [_ Hraise].
  - reflexivity.
  - vm_compute. discriminate.
  - exact Hraise.
Defined.



(** X9 at a concrete input: two records cleaned with
    [keep_last_n = 1]; the record 1.0.0 goes, and so does its
    directory. *)
Lemma cleanup_removes_directory_witness :
  let a := sample_args (Data := unit) 0 "weights" "m" "patch" in
  let w := run_calls (λ _, "") [CallRegister "t1" "t2" a; CallRegister "t3" "t4" a]
             (fresh_world (float := Z)) in
  is_Some (store w !! ("m", "1.0.0")) ∧
  store (cleanup_old_versions "t" "m" 1 false w).2 !! ("m", "1.0.0") = None.
Proof.
  intros a w. split; [vm_compute; by eexists|].
  assert (∃ v, line_of (registry w) "m" !! 0%nat = Some v ∧ version v = "1.0.0")
    as (v & Hv & Hver) by (eexists; split; vm_compute; reflexivity).
  rewrite <- Hver.
  apply (cleanup_removes_directory "t" "m" 1 false w (line_of (registry w) "m") v).
  - reflexivity.
  - by eapply list_elem_of_lookup_2.
  - injection Hv as <-. apply (bool_decide_unpack _). vm_compute. exact I.
Defined.

(** X13 at a concrete input: the model registered first is loaded by
    its version. *)
Lemma load_model_returns_witness :
  let a := sample_args (Data := unit) 0 "weights" "m" "patch" in
  let w := run_calls (λ _, "") [CallRegister "t1" "t2" a; CallRegister "t3" "t4" a]
             (fresh_world (float := Z)) in
  ∃ info, load_model w "m" (Some "1.0.0") = Ok ("weights", info) ∧
          version info = "1.0.0" ∧ info ∈ line_of (registry w) "m".
Proof.
  intros a w.
  assert (∃ info, load_model w "m" (Some "1.0.0") = Ok ("weights", info))
    as [info Hload] by (eexists; vm_compute; reflexivity).
  exists info. split; [exact Hload|].
  destruct (load_model_returns w "m" (Some "1.0.0") "weights" info Hload)
    as (Hver & Hin & _).
  split; [exact Hver|exact Hin].
Defined.

(** X15 at a concrete input: 1.0.0 is compared with the unknown 9.9.9. *)
Lemma compare_versions_missing_witness :
  let w := sample_world (float := Z) (Artifact := string)
             {["x" := [sample_record 0 "x" "1.0.0" false 5]]} ∅ in
  compare_versions 0 Z.sub Z.gtb (λ _ _, Some 0) w "x" "1.0.0" "9.9.9"
  = Raise (ValueError "One or both versions not found").
Proof.
  intros w.
  apply (compare_versions_missing 0 Z.sub Z.gtb (λ _ _, Some 0) w "x"
           "1.0.0" "9.9.9").
  right. apply (bool_decide_unpack _). vm_compute. exact I.
Defined.

(** X16 at a concrete input: 1.0.0 with 5 features is compared with
    1.0.1 with 8. *)
Lemma compare_versions_result_witness :
  let w := sample_world (float := Z) (Artifact := string)
             {["x" := [sample_record 0 "x" "1.0.0" false 5;
                       sample_record 0 "x" "1.0.1" false 8]]} ∅ in
  ∃ c, compare_versions 0 Z.sub Z.gtb (λ _ _, Some 0) w "x" "1.0.0" "1.0.1"
       = Ok c ∧
       cmp_feature_count_diff c = 3.
Proof.
  intros w.
  destruct (compare_versions_result 0 Z.sub Z.gtb (λ _ _, Some 0) w "x"
              "1.0.0" "1.0.1"
              (sample_record 0 "x" "1.0.0" false 5)
              (sample_record 0 "x" "1.0.1" false 8) 0)
    as (c & Hc & _ & _ & _ & _ & Hfeat & _).
  - discriminate.
  - vm_compute. reflexivity.
  - vm_compute. reflexivity.
  - reflexivity.
  - exists c. split; [exact Hc|exact Hfeat].
Defined.

(** X19 at a concrete input: the training script deploys
    ["risk_scorer"] on an empty model directory, and the API's manager
    then serves it for the model type ["risk"]. *)
Lemma train_register_model_result_witness :
  let r := train_register_model (Data := unit) (λ _, "")
             "2024-01-01 00:00" "t1" "t2" "t3"
             "weights" "risk_scorer" "classification" ∅ 0 true
             (fresh_world (float := Z)) in
  r.1 = Ok "1.0.0" ∧
  (get_model (initialize r.2 new_manager) "risk").1 = Some "weights".
Proof.
  intros r.
  destruct (train_register_model_result (Data := unit) (λ _, "")
              "2024-01-01 00:00" "t1" "t2" "t3"
              "weights" "risk_scorer" "classification" ∅ 0 true
              (fresh_world (float := Z)) new_registry)
    as (info & Hok & Hnext & _ & _ & _ & _ & _ & _ & _ & _ & Hserve).
  - reflexivity.
  - apply new_registry_consistent.
  - injection Hnext as Hinfo. split.
    + fold r in Hok. by rewrite Hok, <- Hinfo.
    + apply (Hserve new_manager). reflexivity.
Defined.


(** X22 at a concrete input: three different records, nothing locked,
    [keep_last_n = 1]: two records are removed and the latest is what
    is left. *)
Lemma cleanup_removes_exactly_witness :
  let line := [sample_record 0 "m" "1.0.0" false 5;
               sample_record 0 "m" "1.0.1" false 5;
               sample_record 0 "m" "1.0.2" false 5] in
  let w := sample_world (float := Z) (Artifact := string) {["m" := line]} ∅ in
  let r := cleanup_old_versions "t" "m" 1 false w in
  r.1 = Ok 2 ∧
  line_of (registry r.2) "m" = [sample_record 0 "m" "1.0.2" false 5].
Proof.
  intros line w r.
  destruct (cleanup_removes_exactly "t" "m" 1 false w line)
    as (Hok & _ & _ & Hline).
  - reflexivity.
  - apply (bool_decide_unpack _). vm_compute. exact I.
  - intros v _. apply not_elem_of_empty.
  - split; [exact Hok|exact (Hline eq_refl)].
Defined.
